(** * C44Matrix: a 4x4 matrix applied to RGBA pixel data

    A shallow embedding of the two variants of the plugin,
    [src/C44Matrix.cpp] (the original) and [src/16.1+/C44Matrix.cpp] (the
    port to the newer host API), and the properties of its matrix
    resolution, its pixel kernel and its live-value bridge.

    Layout of the development:
    - [Scalar]: single and double precision numbers (IEEE-754 binary32 and
      binary64, on the Standard Library's [SpecFloat]) and the conversions
      the code performs between them;
    - [DDImage]: the part of the host library the plugin calls (vectors,
      matrices, rows of pixels, knobs);
    - the code shared verbatim by both variants ([_validate],
      [pixel_engine]);
    - [Legacy] and [V16]: the provider extraction and the live-value
      queries of each variant;
    - the properties. *)

From Stdlib Require Import ZArith Bool List Lia String.
From Stdlib Require Import Floats.SpecFloat.
From stdpp Require Import base list list_numbers.

Local Open Scope Z_scope.

(* ===================================================================== *)
(** * Scalars *)
(* ===================================================================== *)

Module Scalar.

(** C++ [float]: an IEEE-754 binary32 datum (24 bits of precision,
    infinities at exponent 128). *)
Variant float : Type := Float (v : spec_float).

(** C++ [double]: an IEEE-754 binary64 datum. *)
Variant double : Type := Double (v : spec_float).

Definition float_bits (a : float) : spec_float := let 'Float v := a in v.
Definition double_bits (a : double) : spec_float := let 'Double v := a in v.

(** The arithmetic of [float], rounding to nearest even. *)
Definition fadd (a b : float) : float :=
  Float (SFadd 24 128 (float_bits a) (float_bits b)).
Definition fmul (a b : float) : float :=
  Float (SFmul 24 128 (float_bits a) (float_bits b)).
Definition fdiv (a b : float) : float :=
  Float (SFdiv 24 128 (float_bits a) (float_bits b)).
Definition fsub (a b : float) : float :=
  Float (SFsub 24 128 (float_bits a) (float_bits b)).
Definition fneg (a : float) : float := Float (SFopp (float_bits a)).
Definition fsqrt (a : float) : float := Float (SFsqrt 24 128 (float_bits a)).

(** [static_cast<float>(d)]: round to nearest even into binary32. *)
Definition float_of_double (d : double) : float :=
  match double_bits d with
  | S754_finite s m e => Float (binary_round 24 128 s m e)
  | v => Float v
  end.

(** [static_cast<double>(f)]: every binary32 datum is a binary64 datum;
    [binary_round] only renormalises the mantissa. *)
Definition double_of_float (f : float) : double :=
  match float_bits f with
  | S754_finite s m e => Double (binary_round 53 1024 s m e)
  | v => Double v
  end.

(** [d == e] on doubles (false as soon as one side is a NaN). *)
Definition double_eqb (a b : double) : bool :=
  SFeqb (double_bits a) (double_bits b).

Definition INT_MIN : Z := - 2 ^ 31.
Definition INT_MAX : Z := 2 ^ 31 - 1.

(** [static_cast<int>(d)]: truncation toward zero. The conversion of a
    NaN, an infinity or a value outside [int] is undefined in C++; the
    model takes what the x86 conversion instruction yields, [INT_MIN]. *)
Definition int_of_double (d : double) : Z :=
  match double_bits d with
  | S754_zero _ => 0
  | S754_finite s m e =>
      let q := match e with
               | Z0 => Zpos m
               | Zpos _ => Zpos m * 2 ^ e
               | Zneg p => Zpos m / 2 ^ Zpos p
               end in
      let z := cond_Zopp s q in
      if (INT_MIN <=? z) && (z <=? INT_MAX) then z else INT_MIN
  | _ => INT_MIN
  end.

(** [(double) n] for an [int] [n]. *)
Definition double_of_int (n : Z) : double :=
  Double (binary_normalize 53 1024 n 0 false).

(** The constants 0, 1, 0.5 and 2. *)
Definition f0 : float := Float (S754_zero false).
Definition f1 : float := Float (SFone 24 128).
Definition fhalf : float := Float (S754_finite false 8388608 (-24)).
Definition f2 : float := Float (S754_finite false 8388608 (-22)).
Definition d0 : double := Double (S754_zero false).
Definition d1 : double := Double (SFone 53 1024).

(** [(float) n] for an [int] [n]. *)
Definition float_of_int (n : Z) : float :=
  Float (binary_normalize 24 128 n 0 false).

Definition is_nan (a : float) : bool :=
  match float_bits a with S754_nan => true | _ => false end.
Definition is_inf (a : float) : bool :=
  match float_bits a with S754_infinity _ => true | _ => false end.
Definition is_zero (a : float) : bool :=
  match float_bits a with S754_zero _ => true | _ => false end.

#[global] Instance float_inhabited : Inhabited float := populate f0.
#[global] Instance double_inhabited : Inhabited double := populate d0.

End Scalar.
Import Scalar.

(* ===================================================================== *)
(** * The host library *)
(* ===================================================================== *)

Module DDImage.

(** [DD::Image::Vector4]: four floats. *)
Record Vector4 : Type := mkVector4 { x : float; y : float; z : float; w : float }.

(** Modelled from the spec: [Vector4::operator/=(float)] belongs to the
    host library, whose headers are not part of the repository. Section
    4.4 step 3 has it divide all four components by the scalar, which is
    passed by value: [pw /= pw.w] reads [pw.w] once, before any component
    changes. *)
Definition Vector4_div (v : Vector4) (d : float) : Vector4 :=
  mkVector4 (fdiv (x v) d) (fdiv (y v) d) (fdiv (z v) d) (fdiv (w v) d).

(** Modelled from the spec: the 4x4 matrix classes of the host library,
    [DD::Image::Matrix4] and [fdk::Mat4f] over [float] and [fdk::Mat4d]
    over [double], whose headers are not part of the repository. Section 3
    describes a matrix as 16 numbers, logically row-major: [aRC] is the
    entry of row [R] and column [C], and entry [4 * R + C] of the flat
    array. *)
Record Mat4 (A : Type) : Type := mkMat4 {
  a00 : A; a01 : A; a02 : A; a03 : A;
  a10 : A; a11 : A; a12 : A; a13 : A;
  a20 : A; a21 : A; a22 : A; a23 : A;
  a30 : A; a31 : A; a32 : A; a33 : A
}.
Arguments mkMat4 {A}.
Arguments a00 {A}. Arguments a01 {A}. Arguments a02 {A}. Arguments a03 {A}.
Arguments a10 {A}. Arguments a11 {A}. Arguments a12 {A}. Arguments a13 {A}.
Arguments a20 {A}. Arguments a21 {A}. Arguments a22 {A}. Arguments a23 {A}.
Arguments a30 {A}. Arguments a31 {A}. Arguments a32 {A}. Arguments a33 {A}.

Definition Matrix4 : Type := Mat4 float.
Definition Mat4f : Type := Mat4 float.
Definition Mat4d : Type := Mat4 double.

(** [m.array()]: the 16 entries as a flat array. *)
Definition array {A} (m : Mat4 A) : list A :=
  [ a00 m; a01 m; a02 m; a03 m;
    a10 m; a11 m; a12 m; a13 m;
    a20 m; a21 m; a22 m; a23 m;
    a30 m; a31 m; a32 m; a33 m ].

(** The constructor from a pointer to 16 numbers, [Matrix4(const float* arr)]:
    entry [i] of the matrix is [arr[i]]. *)
Definition Mat4_of_array {A} `{Inhabited A} (arr : list A) : Mat4 A :=
  mkMat4
    (arr !!! 0%nat)  (arr !!! 1%nat)  (arr !!! 2%nat)  (arr !!! 3%nat)
    (arr !!! 4%nat)  (arr !!! 5%nat)  (arr !!! 6%nat)  (arr !!! 7%nat)
    (arr !!! 8%nat)  (arr !!! 9%nat)  (arr !!! 10%nat) (arr !!! 11%nat)
    (arr !!! 12%nat) (arr !!! 13%nat) (arr !!! 14%nat) (arr !!! 15%nat).

(** Entry of row [r] and column [c]. *)
Definition entry {A} `{Inhabited A} (m : Mat4 A) (r c : nat) : A :=
  array m !!! (4 * r + c)%nat.

(** [m.makeIdentity()] and [fdk::Mat4f::setToIdentity()]. *)
Definition makeIdentity : Matrix4 :=
  mkMat4 f1 f0 f0 f0
         f0 f1 f0 f0
         f0 f0 f1 f0
         f0 f0 f0 f1.

(** Modelled from the spec: [Matrix4::transpose()] (section 4.1: in place,
    swap the off-diagonal pairs). *)
Definition transpose (m : Matrix4) : Matrix4 :=
  mkMat4 (a00 m) (a10 m) (a20 m) (a30 m)
         (a01 m) (a11 m) (a21 m) (a31 m)
         (a02 m) (a12 m) (a22 m) (a32 m)
         (a03 m) (a13 m) (a23 m) (a33 m).

(** Modelled from the spec: [Matrix4::transform(const Vector4&)] (section
    4.1: matrix times column vector), each row summed left to right in
    single precision. *)
Definition dot4 (p q r s : float) (v : Vector4) : float :=
  fadd (fadd (fadd (fmul p (x v)) (fmul q (y v))) (fmul r (z v))) (fmul s (w v)).

Definition transform (m : Matrix4) (v : Vector4) : Vector4 :=
  mkVector4 (dot4 (a00 m) (a01 m) (a02 m) (a03 m) v)
            (dot4 (a10 m) (a11 m) (a12 m) (a13 m) v)
            (dot4 (a20 m) (a21 m) (a22 m) (a23 m) v)
            (dot4 (a30 m) (a31 m) (a32 m) (a33 m) v).

(** [DD::Image::Format]: the pixel dimensions of an image format. *)
Record Format : Type := mkFormat {
  width : Z; height : Z; pixel_aspect : double
}.

(** The matrix operations of the host library whose code the plugin only
    calls: the inverse (section 4.1: best effort, no error signalled on a
    singular matrix) and the three decomposition helpers. The properties
    below hold for every implementation of them. *)
Class Matrix4Ops : Type := {
  inverse : Matrix4 -> Matrix4;
  translationOnly : Matrix4 -> Matrix4;
  rotationOnly : Matrix4 -> Matrix4;
  scaleOnly : Matrix4 -> Matrix4
}.

(** Channels of a row; the kernel touches the first four. *)
Inductive Channel : Type :=
  | Chan_Red | Chan_Green | Chan_Blue | Chan_Alpha
  | Chan_Other (n : nat).

#[global] Instance Channel_eq_dec : EqDecision Channel.
Proof. solve_decision. Defined.

Definition ChannelSet : Type := Channel -> bool.

(** [DD::Image::Row]: for each channel a buffer of floats indexed by the
    horizontal pixel coordinate. *)
Definition Row : Type := Channel -> Z -> float.

(** Rows are objects the host owns and hands to the plugin by reference:
    a store of rows by address. [pixel_engine] may receive the same row as
    its input and as its output. *)
Definition RowRef : Type := nat.
Definition Rows : Type := RowRef -> Row.

(** [h[ref][c][X] = v]. *)
Definition row_write (h : Rows) (ref : RowRef) (c : Channel) (X : Z) (v : float)
  : Rows :=
  fun ref' c' X' =>
    if decide (ref' = ref) then
      if decide (c' = c) then
        if decide (X' = X) then v else h ref' c' X'
      else h ref' c' X'
    else h ref' c' X'.

(** [DD::Image::OutputContext]: the frame and view of an evaluation. *)
Record OutputContext : Type := mkOutputContext { frame : double; view : Z }.

(** A knob as the plugin reads it: its value in the current context
    ([get_value()]) and at a given frame and view ([get_value_at]). *)
Record Knob : Type := mkKnob {
  get_value : double;
  get_value_at : double -> Z -> double
}.

(** [DD::Image::ConvolveArray]: the storage of an array knob. *)
Record ConvolveArray : Type := mkConvolveArray {
  array_width : Z; array_height : Z; array_data : list float
}.

End DDImage.
Import DDImage.

(* ===================================================================== *)
(** * The node and the code both variants share *)
(* ===================================================================== *)

(** The state of a [C44Matrix] node that the core reads and writes. [Op] is
    the type of the host's operators, which differs between the two host
    APIs. [knob] is the lookup of a knob by name, [input1] is
    [Op::input(1)] and [input_format] the format of the image input. The
    original variant declares further members ([camxforminv], [shiftmtx],
    [unproj], [_cam]) that no function reads or writes. *)
Record C44Matrix (Op : Type) : Type := mkC44Matrix {
  _matrixFrom : Z;
  _matrixOption : Z;
  array_mtx : Matrix4;
  _arrayKnob : ConvolveArray;
  _invert : bool;
  _transpose : bool;
  _w_divide : bool;
  knob : string -> Knob;
  input1 : Op;
  input_format : Format
}.
Arguments mkC44Matrix {Op}.
Arguments _matrixFrom {Op}. Arguments _matrixOption {Op}.
Arguments array_mtx {Op}. Arguments _arrayKnob {Op}.
Arguments _invert {Op}. Arguments _transpose {Op}. Arguments _w_divide {Op}.
Arguments knob {Op} _ _%_string_scope. Arguments input1 {Op}. Arguments input_format {Op}.

Definition set_array_mtx {Op} (self : C44Matrix Op) (m : Matrix4) : C44Matrix Op :=
  mkC44Matrix (_matrixFrom self) (_matrixOption self) m (_arrayKnob self)
              (_invert self) (_transpose self) (_w_divide self)
              (knob self) (input1 self) (input_format self).

(** [C44Matrix::_validate] (lines 187-203 of the original, 300-315 of the
    port; the same text). The channel bookkeeping that follows the
    conditioning ([set_out_channels], [info_]) belongs to the host's image
    pipeline and does not touch the matrix. *)
Definition _validate {Op} {ops : Matrix4Ops} (self : C44Matrix Op) (for_real : bool)
  : C44Matrix Op :=
  let array_mtx := Mat4_of_array (array_data (_arrayKnob self)) in
  let array_mtx := if _transpose self then transpose array_mtx else array_mtx in
  let array_mtx := if _invert self then inverse array_mtx else array_mtx in
  set_array_mtx self array_mtx.

(** One turn of the loop of [pixel_engine]: the four reads, the transform,
    the optional divide, then the four writes. *)
Definition pixel_body {Op} (self : C44Matrix Op) (in_ out : RowRef) (X : Z)
  (h : Rows) : Rows :=
  let sc := mkVector4 (h in_ Chan_Red X) (h in_ Chan_Green X)
                      (h in_ Chan_Blue X) (h in_ Chan_Alpha X) in
  let pw := transform (array_mtx self) sc in
  let pw := if _w_divide self then Vector4_div pw (w pw) else pw in
  let h := row_write h out Chan_Red X (x pw) in
  let h := row_write h out Chan_Green X (y pw) in
  let h := row_write h out Chan_Blue X (z pw) in
  row_write h out Chan_Alpha X (w pw).

(** [for (int X = x; X < r; X++)], with the number of turns left as fuel. *)
Fixpoint pixel_loop {Op} (self : C44Matrix Op) (in_ out : RowRef)
  (turns : nat) (X : Z) (h : Rows) : Rows :=
  match turns with
  | O => h
  | S turns' => pixel_loop self in_ out turns' (X + 1) (pixel_body self in_ out X h)
  end.

(** [C44Matrix::pixel_engine] (lines 219-254 of the original, 328-356 of
    the port; the same loop). [aborted] is the host's abort signal, read
    once on entry; [in_] and [out] are the rows the host passes. *)
Definition pixel_engine {Op} (self : C44Matrix Op) (aborted : bool)
  (in_ : RowRef) (y x r : Z) (channels : ChannelSet) (out : RowRef)
  (h : Rows) : Rows :=
  if aborted then h
  else pixel_loop self in_ out (Z.to_nat (r - x)) x h.

(* ===================================================================== *)
(** * The port to the newer host API: [src/16.1+/C44Matrix.cpp] *)
(* ===================================================================== *)

Module V16.

(** An axis-like operator exposes its world transform, in double
    precision. *)
Record AxisOp : Type := mkAxisOp { worldTransform : Mat4d }.

(** [class CameraOp : public AxisOp]: a camera is an axis that also has a
    projection matrix. *)
Record CameraOp : Type := mkCameraOp {
  camera_axis : AxisOp;
  projectionMatrix : Mat4d
}.

(** What [Op::input(1)] can point to: nothing, a camera, an axis that is
    not a camera, or an operator of another kind. *)
Inductive Op : Type :=
  | Op_null
  | Op_camera (cam : CameraOp)
  | Op_axis (axis : AxisOp)
  | Op_other.

Definition dynamic_cast_CameraOp (op : Op) : option CameraOp :=
  match op with Op_camera cam => Some cam | _ => None end.

Definition dynamic_cast_AxisOp (op : Op) : option AxisOp :=
  match op with
  | Op_camera cam => Some (camera_axis cam)
  | Op_axis axis => Some axis
  | _ => None
  end.

(** The host calls whose code the plugin does not contain: [validate()],
    which makes an operator recompute its state, and
    [CameraOp::ToFormat], which fills a matrix for a format. *)
Class Host : Type := {
  validate_camera : CameraOp -> CameraOp;
  validate_axis : AxisOp -> AxisOp;
  ToFormat : Mat4f -> Format -> Mat4f
}.

(** [mat4dToMatrix4], lines 44-51. *)
Definition mat4dToMatrix4 (src : Mat4d) : Matrix4 :=
  let s := array src in
  let buf := float_of_double <$> s in
  Mat4_of_array buf.

(** [mat4fToMatrix4], lines 53-56. *)
Definition mat4fToMatrix4 (src : Mat4f) : Matrix4 :=
  Mat4_of_array (array src).

Section Extraction.
Context {ops : Matrix4Ops} {host : Host}.

(** [getCameraMatrix], lines 62-95. *)
Definition getCameraMatrix (cam : CameraOp) (option : Z) (fmt : Format) : Matrix4 :=
  let mtx := makeIdentity in
  match option with
  | 0 => mat4dToMatrix4 (worldTransform (camera_axis cam))
  | 1 => translationOnly (mat4dToMatrix4 (worldTransform (camera_axis cam)))
  | 2 => rotationOnly (mat4dToMatrix4 (worldTransform (camera_axis cam)))
  | 3 => scaleOnly (mat4dToMatrix4 (worldTransform (camera_axis cam)))
  | 4 => mat4dToMatrix4 (projectionMatrix cam)
  | 5 => let fmtMtx := makeIdentity in
         let fmtMtx := ToFormat fmtMtx fmt in
         mat4fToMatrix4 fmtMtx
  | _ => mtx
  end.

(** [getAxisMatrix], lines 100-127. *)
Definition getAxisMatrix (axis : AxisOp) (option : Z) : Matrix4 :=
  let mtx := makeIdentity in
  match option with
  | 0 => mat4dToMatrix4 (worldTransform axis)
  | 1 => translationOnly (mat4dToMatrix4 (worldTransform axis))
  | 2 => rotationOnly (mat4dToMatrix4 (worldTransform axis))
  | 3 => scaleOnly (mat4dToMatrix4 (worldTransform axis))
  | 4 => mtx
  | 5 => mtx
  | _ => mtx
  end.

(** [C44Matrix::_getInputMatrix], lines 142-163. *)
Definition _getInputMatrix (self : C44Matrix Op) (context : OutputContext) : Matrix4 :=
  let cam_mtx := makeIdentity in
  let inputOp := input1 self in
  let camOp := dynamic_cast_CameraOp inputOp in
  let axisOp := dynamic_cast_AxisOp inputOp in
  let option :=
    int_of_double
      (get_value_at (knob self "matrixType") (frame context) (view context)) in
  match camOp with
  | Some camOp =>
      let camOp := validate_camera camOp in
      getCameraMatrix camOp option (input_format self)
  | None =>
      match axisOp with
      | Some axisOp =>
          let axisOp := validate_axis axisOp in
          getAxisMatrix axisOp option
      | None => cam_mtx
      end
  end.

(** [provideValues], the overload that returns a vector, lines 206-221. *)
Definition provideValues (self : C44Matrix Op) (oc : OutputContext) : list double :=
  let values := replicate 16 d0 in
  let cam_mtx := makeIdentity in
  let cam_mtx :=
    if double_eqb (get_value_at (knob self "matrixFrom") (frame oc) (view oc))
                  (double_of_int 1)
    then _getInputMatrix self oc
    else cam_mtx in
  let mtx_vals := array cam_mtx in
  foldl (fun values i => <[i := double_of_float (mtx_vals !!! i)]> values)
        values (seq 0 16).

(** [provideValues], the overload that writes into the caller's buffer,
    lines 226-240. [values] is the buffer as the caller passes it and the
    result is the buffer on return. *)
Definition provideValues_buffer (values : list double) (nValues : nat)
  (self : C44Matrix Op) (oc : OutputContext) : list double :=
  let cam_mtx := makeIdentity in
  let cam_mtx :=
    if double_eqb (get_value_at (knob self "matrixFrom") (frame oc) (view oc))
                  (double_of_int 1)
    then _getInputMatrix self oc
    else cam_mtx in
  let mtx_vals := array cam_mtx in
  let count := Nat.min nValues 16 in
  foldl (fun values i => <[i := double_of_float (mtx_vals !!! i)]> values)
        values (seq 0 count).

End Extraction.

(** [provideValuesEnabled], lines 242-246. *)
Definition provideValuesEnabled (self : C44Matrix Op) (oc : OutputContext) : bool :=
  double_eqb (get_value (knob self "matrixFrom")) (double_of_int 1).

(** [isDefault], lines 248-252. *)
Definition isDefault (self : C44Matrix Op) (oc : OutputContext) : bool := false.

(** [isAnimated], lines 254-258. *)
Definition isAnimated (self : C44Matrix Op) (oc : OutputContext) : bool :=
  _matrixFrom self =? 1.

End V16.

(* ===================================================================== *)
(** * The original variant: [src/C44Matrix.cpp] *)
(* ===================================================================== *)

Module Legacy.

(** In the older host API the operators expose single-precision
    matrices. *)
Record AxisOp : Type := mkAxisOp { matrix : Matrix4 }.

Record CameraOp : Type := mkCameraOp {
  camera_axis : AxisOp;
  projection : Matrix4
}.

Inductive Op : Type :=
  | Op_null
  | Op_camera (cam : CameraOp)
  | Op_axis (axis : AxisOp)
  | Op_other.

Definition dynamic_cast_CameraOp (op : Op) : option CameraOp :=
  match op with Op_camera cam => Some cam | _ => None end.

Definition dynamic_cast_AxisOp (op : Op) : option AxisOp :=
  match op with
  | Op_camera cam => Some (camera_axis cam)
  | Op_axis axis => Some axis
  | _ => None
  end.

Class Host : Type := {
  validate_camera : CameraOp -> CameraOp;
  validate_axis : AxisOp -> AxisOp;
  to_format : CameraOp -> Matrix4 -> Format -> Matrix4
}.

Section Extraction.
Context {ops : Matrix4Ops} {host : Host}.

(** [C44Matrix::provideValues], lines 110-175: the matrix [cam_mtx] the
    function holds when it reaches line 177. *)
Definition provided_matrix (self : C44Matrix Op) (context : OutputContext) : Matrix4 :=
  let cam_mtx := makeIdentity in
  if double_eqb (get_value_at (knob self "matrixFrom") (frame context) (view context))
                (double_of_int 1)
  then
    let inputOp := input1 self in
    let _camOp := dynamic_cast_CameraOp inputOp in
    let _axisOp := dynamic_cast_AxisOp inputOp in
    match _camOp with
    | Some _camOp =>
        let _camOp := validate_camera _camOp in
        let option :=
          int_of_double
            (get_value_at (knob self "matrixType") (frame context) (view context)) in
        match option with
        | 0 => matrix (camera_axis _camOp)
        | 1 => translationOnly (matrix (camera_axis _camOp))
        | 2 => rotationOnly (matrix (camera_axis _camOp))
        | 3 => scaleOnly (matrix (camera_axis _camOp))
        | 4 => projection _camOp
        | 5 => to_format _camOp cam_mtx (input_format self)
        | _ => cam_mtx
        end
    | None =>
        match _axisOp with
        | Some _axisOp =>
            let _axisOp := validate_axis _axisOp in
            let option :=
              int_of_double
                (get_value_at (knob self "matrixType") (frame context) (view context)) in
            match option with
            | 0 => matrix _axisOp
            | 1 => translationOnly (matrix _axisOp)
            | 2 => rotationOnly (matrix _axisOp)
            | 3 => scaleOnly (matrix _axisOp)
            | 4 => makeIdentity
            | 5 => makeIdentity
            | _ => cam_mtx
            end
        | None => cam_mtx
        end
    end
  else cam_mtx.

(** [C44Matrix::provideValues], lines 107-184: the 16 entries of that
    matrix are pushed onto an empty vector (lines 177-183). *)
Definition provideValues (self : C44Matrix Op) (context : OutputContext) : list double :=
  let values := [] in
  let cam_mtx := provided_matrix self context in
  let mtx_vals := array cam_mtx in
  foldl (fun values i => values ++ [double_of_float (mtx_vals !!! i)])
        values (seq 0 16).

End Extraction.

(** [provideValuesEnabled], lines 67-68. *)
Definition provideValuesEnabled (self : C44Matrix Op) (oc : OutputContext) : bool :=
  double_eqb (get_value (knob self "matrixFrom")) (double_of_int 1).

End Legacy.

(* ===================================================================== *)
(** * A concrete host, to run the definitions on examples *)
(* ===================================================================== *)

(** The properties below are stated for every implementation of the host
    calls. To evaluate the code on concrete inputs one implementation is
    enough; this one follows the textbook definitions. *)
Module Sample.

Definition det3 (a b c d e f g h i : float) : float :=
  fadd (fsub (fmul a (fsub (fmul e i) (fmul f h)))
             (fmul b (fsub (fmul d i) (fmul f g))))
       (fmul c (fsub (fmul d h) (fmul e g))).

Definition others (k : nat) : list nat :=
  filter (fun j => j <> k) [0; 1; 2; 3]%nat.

Definition cofactor (m : Matrix4) (r c : nat) : float :=
  match others r, others c with
  | [r0; r1; r2], [c0; c1; c2] =>
      let d := det3 (entry m r0 c0) (entry m r0 c1) (entry m r0 c2)
                    (entry m r1 c0) (entry m r1 c1) (entry m r1 c2)
                    (entry m r2 c0) (entry m r2 c1) (entry m r2 c2) in
      if Nat.even (r + c) then d else fneg d
  | _, _ => f0
  end.

Definition determinant (m : Matrix4) : float :=
  fadd (fadd (fadd (fmul (a00 m) (cofactor m 0 0)) (fmul (a01 m) (cofactor m 0 1)))
             (fmul (a02 m) (cofactor m 0 2)))
       (fmul (a03 m) (cofactor m 0 3)).

(** Adjugate over determinant; a singular matrix yields infinities and
    NaNs, no error. *)
Definition inverse (m : Matrix4) : Matrix4 :=
  let d := determinant m in
  Mat4_of_array
    ((fun i => fdiv (cofactor m (i mod 4) (i / 4)) d) <$> seq 0 16).

Definition norm3 (p q r : float) : float :=
  fsqrt (fadd (fadd (fmul p p) (fmul q q)) (fmul r r)).

Definition translationOnly (m : Matrix4) : Matrix4 :=
  mkMat4 f1 f0 f0 (a03 m)
         f0 f1 f0 (a13 m)
         f0 f0 f1 (a23 m)
         f0 f0 f0 f1.

Definition scaleOnly (m : Matrix4) : Matrix4 :=
  mkMat4 (norm3 (a00 m) (a10 m) (a20 m)) f0 f0 f0
         f0 (norm3 (a01 m) (a11 m) (a21 m)) f0 f0
         f0 f0 (norm3 (a02 m) (a12 m) (a22 m)) f0
         f0 f0 f0 f1.

Definition rotationOnly (m : Matrix4) : Matrix4 :=
  let sx := norm3 (a00 m) (a10 m) (a20 m) in
  let sy := norm3 (a01 m) (a11 m) (a21 m) in
  let sz := norm3 (a02 m) (a12 m) (a22 m) in
  mkMat4 (fdiv (a00 m) sx) (fdiv (a01 m) sy) (fdiv (a02 m) sz) f0
         (fdiv (a10 m) sx) (fdiv (a11 m) sy) (fdiv (a12 m) sz) f0
         (fdiv (a20 m) sx) (fdiv (a21 m) sy) (fdiv (a22 m) sz) f0
         f0 f0 f0 f1.

#[export] Instance ops : Matrix4Ops :=
  {| DDImage.inverse := inverse;
     DDImage.translationOnly := translationOnly;
     DDImage.rotationOnly := rotationOnly;
     DDImage.scaleOnly := scaleOnly |}.

(** Scale [x] and [y] by half the width of the format. *)
Definition scale_to_format (m : Matrix4) (fmt : Format) : Matrix4 :=
  let s := fdiv (float_of_int (width fmt)) f2 in
  mkMat4 (fmul s (a00 m)) (fmul s (a01 m)) (fmul s (a02 m)) (fmul s (a03 m))
         (fmul s (a10 m)) (fmul s (a11 m)) (fmul s (a12 m)) (fmul s (a13 m))
         (a20 m) (a21 m) (a22 m) (a23 m)
         (a30 m) (a31 m) (a32 m) (a33 m).

(** Operators that are already up to date: [validate()] changes nothing. *)
#[export] Instance host16 : V16.Host :=
  {| V16.validate_camera := fun cam => cam;
     V16.validate_axis := fun axis => axis;
     V16.ToFormat := scale_to_format |}.

#[export] Instance host_legacy : Legacy.Host :=
  {| Legacy.validate_camera := fun cam => cam;
     Legacy.validate_axis := fun axis => axis;
     Legacy.to_format := fun _ => scale_to_format |}.

(** Constants and inputs of the examples. *)

(** The double nearest to one tenth, [0x3FB999999999999A]. *)
Definition d_tenth : double := Double (S754_finite false 7205759403792794 (-56)).

Definition diag (p q r s : float) : Matrix4 :=
  mkMat4 p f0 f0 f0  f0 q f0 f0  f0 f0 r f0  f0 f0 f0 s.

Definition diag_d (p q r s : double) : Mat4d :=
  mkMat4 p d0 d0 d0  d0 q d0 d0  d0 d0 r d0  d0 d0 d0 s.

Definition constant_knob (v : Z) : Knob :=
  mkKnob (double_of_int v) (fun _ _ => double_of_int v).

(** The knobs of a node whose mode and extraction option do not vary with
    the context. *)
Definition knobs (matrixFrom matrixType : Z) (name : string) : Knob :=
  if String.eqb name "matrixFrom" then constant_knob matrixFrom
  else if String.eqb name "matrixType" then constant_knob matrixType
  else constant_knob 0.

Definition HD : Format := mkFormat 1920 1080 d1.

Definition node {Op} (matrixFrom matrixType : Z) (arr : list float)
  (invert transpose w_divide : bool) (input : Op) : C44Matrix Op :=
  mkC44Matrix matrixFrom matrixType makeIdentity (mkConvolveArray 4 4 arr)
              invert transpose w_divide (knobs matrixFrom matrixType) input HD.

Definition frame1 : OutputContext := mkOutputContext d1 0.

(** A row store whose every pixel is [(1, 1, 1, 1)]. *)
Definition white : Rows := fun _ _ _ => f1.

End Sample.

(* ===================================================================== *)
(** * The vocabulary of the statements *)
(* ===================================================================== *)

(** The pixel of a row at a coordinate, as a vector. *)
Definition pixel_at (row : Row) (X : Z) : Vector4 :=
  mkVector4 (row Chan_Red X) (row Chan_Green X) (row Chan_Blue X) (row Chan_Alpha X).

(** What the kernel computes for one input pixel. *)
Definition pixel_value {Op} (self : C44Matrix Op) (sc : Vector4) : Vector4 :=
  let pw := transform (array_mtx self) sc in
  if _w_divide self then Vector4_div pw (w pw) else pw.

(** The same loop body run over the pixels in a given order, to compare
    with the left-to-right order of the source. *)
Definition pixel_engine_in_order {Op} (self : C44Matrix Op)
  (in_ out : RowRef) (order : list Z) (h : Rows) : Rows :=
  foldl (fun h X => pixel_body self in_ out X h) h order.

(** What dividing [a] by a zero gives as [q]: a NaN when [a] is itself a
    zero or a NaN, an infinity otherwise. *)
Definition quotient_by_zero (a q : float) : Prop :=
  if is_zero a || is_nan a then is_nan q = true else is_inf q = true.

(** The loop of the two live-value queries of the port: writing
    [values[i] = (double) mtx_vals[i]] for [i] from 0 to [count - 1]. *)
Definition copy_values (mtx_vals : list float) (count : nat)
  (values : list double) : list double :=
  foldl (fun values i => <[i := double_of_float (mtx_vals !!! i)]> values)
        values (seq 0 count).

(** The 16 numbers of the identity matrix, in double precision. *)
Definition identity_values : list double :=
  [ d1; d0; d0; d0;
    d0; d1; d0; d0;
    d0; d0; d1; d0;
    d0; d0; d0; d1 ].

(** The indices of the two enumeration knobs: [matrixFromOptions] and
    [cameraMatrixOptions]. *)
Definition Manual : Z := 0.
Definition FromProvider : Z := 1.
Definition Projection : Z := 4.

(** The mode and the extraction option a query sees in a context. *)
Definition from_provider_at {Op} (node : C44Matrix Op) (oc : OutputContext) : bool :=
  double_eqb (get_value_at (knob node "matrixFrom") (frame oc) (view oc))
             (double_of_int FromProvider).

Definition option_at {Op} (node : C44Matrix Op) (oc : OutputContext) : Z :=
  int_of_double (get_value_at (knob node "matrixType") (frame oc) (view oc)).

(** The matrix the two queries of the port convert. *)
Definition bridge_matrix {ops : Matrix4Ops} {host : V16.Host}
  (self : C44Matrix V16.Op) (oc : OutputContext) : Matrix4 :=
  if from_provider_at self oc then V16._getInputMatrix self oc else makeIdentity.

(* ===================================================================== *)
(** * Inputs of the examples *)
(* ===================================================================== *)

(** A node whose effective matrix maps (1, 1, 1, 1) to (1, 1, 1, [s]),
    with the perspective divide enabled. *)
Definition w_node (s : float) : C44Matrix unit :=
  set_array_mtx (Sample.node 0 0 [] false false true tt) (Sample.diag f1 f1 f1 s).

(** The numbers 1 to 16 as floats, and a node in manual mode holding them. *)
Definition one_to_16 : list float := (fun i => float_of_int (Z.of_nat i)) <$> seq 1 16.

Definition manual_node : C44Matrix unit :=
  Sample.node 0 0 one_to_16 false false false tt.

(** A row store that differs from [Sample.white] at coordinate 0 of row 0
    only. *)
Definition white_but_first : Rows := row_write Sample.white 0%nat Chan_Red 0 f2.

(** A camera whose projection matrix has one tenth as its first entry, a
    number that single precision does not hold. *)
Definition tenth_camera : V16.CameraOp :=
  V16.mkCameraOp (V16.mkAxisOp (Sample.diag_d d1 d1 d1 d1))
                 (Sample.diag_d Sample.d_tenth d1 d1 d1).

Definition legacy_camera : Legacy.CameraOp :=
  Legacy.mkCameraOp (Legacy.mkAxisOp (Sample.diag f1 f1 f1 f1))
                    (Sample.diag f2 f1 f1 f1).

(** Nodes of the port: driven by the camera's projection; in manual mode
    with the same camera connected; in provider mode with nothing
    connected. *)
Definition projection_node : C44Matrix V16.Op :=
  Sample.node FromProvider Projection [] false false false (V16.Op_camera tenth_camera).

Definition manual_camera_node : C44Matrix V16.Op :=
  Sample.node Manual Projection [] false false false (V16.Op_camera tenth_camera).

Definition unconnected_node : C44Matrix V16.Op :=
  Sample.node FromProvider Projection [] false false false V16.Op_null.

(** Nodes of the original variant. *)
Definition legacy_projection_node : C44Matrix Legacy.Op :=
  Sample.node FromProvider Projection [] false false false (Legacy.Op_camera legacy_camera).

Definition legacy_manual_node : C44Matrix Legacy.Op :=
  Sample.node Manual Projection [] false false false (Legacy.Op_camera legacy_camera).

Definition legacy_misconnected_node : C44Matrix Legacy.Op :=
  Sample.node FromProvider Projection [] false false false Legacy.Op_other.

(* ===================================================================== *)
(** * The rest of the node: inputs and channels *)
(* ===================================================================== *)

(** [minimum_inputs] and [maximum_inputs] (lines 57-58 of the original,
    177-178 of the port): [1 + int(_matrixFrom == 1)]. *)
Definition minimum_inputs {Op} (self : C44Matrix Op) : Z :=
  1 + (if _matrixFrom self =? 1 then 1 else 0).

Definition maximum_inputs {Op} (self : C44Matrix Op) : Z :=
  1 + (if _matrixFrom self =? 1 then 1 else 0).

(** [ChannelSet::operator+=], the empty set and [Mask_RGBA]. *)
Definition ChannelSet_add (a b : ChannelSet) : ChannelSet := fun c => a c || b c.

Definition Mask_None : ChannelSet := fun _ => false.

Definition Mask_RGBA : ChannelSet :=
  fun c => match c with
           | Chan_Red | Chan_Green | Chan_Blue | Chan_Alpha => true
           | Chan_Other _ => false
           end.

(** [in_channels] (lines 72-76 of the original, 265-268 of the port): the
    channels of an input that the outputs in [mask] need. *)
Definition in_channels (input : Z) (mask : ChannelSet) : ChannelSet :=
  if input =? 0 then ChannelSet_add mask Mask_RGBA else mask.

(** What [_request] asks of the image input. *)
Record Request : Type := mkRequest {
  request_x : Z; request_y : Z; request_r : Z; request_t : Z;
  request_channels : ChannelSet;
  request_count : Z
}.

(** [C44Matrix::_request] (lines 206-216 of the original, 318-325 of the
    port): the arguments of the call [input0().request(...)]. *)
Definition _request (x y r t : Z) (channels : ChannelSet) (count : Z) : Request :=
  let requestChans := Mask_None in
  let requestChans := ChannelSet_add requestChans channels in
  let requestChans := ChannelSet_add requestChans Mask_RGBA in
  mkRequest x y r t requestChans count.

(** The channel bookkeeping of [_validate] (lines 197-200 of the original,
    310-313 of the port): the set [outchans] handed to [set_out_channels]
    and [info_.turn_on]. [channels] is the member of that name, which the
    plugin declares and never assigns. *)
Definition out_channels (channels : ChannelSet) : ChannelSet :=
  let outchans := channels in
  ChannelSet_add outchans Mask_RGBA.

Module V16Inputs.

(** [test_input] of the port (lines 273-278). [Iop_test_input] is the
    test of the base class, host code. *)
Definition test_input (Iop_test_input : Z -> V16.Op -> bool) (n : Z) (op : V16.Op)
  : bool :=
  if 1 <=? n then
    bool_decide (V16.dynamic_cast_CameraOp op <> None)
    || bool_decide (V16.dynamic_cast_AxisOp op <> None)
  else Iop_test_input n op.

End V16Inputs.

Module LegacyInputs.

(** [test_input] of the original (lines 80-87). *)
Definition test_input (Iop_test_input : Z -> Legacy.Op -> bool) (n : Z)
  (op : Legacy.Op) : bool :=
  if 1 <=? n then
    bool_decide (Legacy.dynamic_cast_CameraOp op <> None)
    || bool_decide (Legacy.dynamic_cast_AxisOp op <> None)
  else Iop_test_input n op.

End LegacyInputs.

(* ===================================================================== *)
(** * Further vocabulary *)
(* ===================================================================== *)

(** A datum that single precision can hold: the mantissa and exponent of a
    finite one are in range and normalised. *)
Definition valid_float (a : float) : bool := valid_binary 24 128 (float_bits a).

(** Neither an infinity nor a NaN. *)
Definition is_number (a : float) : bool := negb (is_inf a || is_nan a).

(** Finite and not a zero. *)
Definition is_finite_nonzero (a : float) : bool :=
  match float_bits a with S754_finite _ _ _ => true | _ => false end.

(** Equal, or both a zero (of either sign). *)
Definition same_number (a b : float) : Prop :=
  a = b \/ (is_zero a = true /\ is_zero b = true).

Definition NaN : float := Float S754_nan.

(** A number that single precision holds, and a pixel of four such. *)
Definition ordinary (a : float) : bool := valid_float a && is_number a.

Definition ordinary_pixel (v : Vector4) : bool :=
  ordinary (x v) && ordinary (y v) && ordinary (z v) && ordinary (w v).

(** The double-precision matrix that holds the numbers of a
    single-precision one. *)
Definition widen (m : Matrix4) : Mat4d :=
  Mat4_of_array (double_of_float <$> array m).

(** The providers of the original host that hold, in single precision,
    what the providers of the newer host hold in double precision. *)
Definition narrow_axis (axis : V16.AxisOp) : Legacy.AxisOp :=
  Legacy.mkAxisOp (V16.mat4dToMatrix4 (V16.worldTransform axis)).

Definition narrow_camera (cam : V16.CameraOp) : Legacy.CameraOp :=
  Legacy.mkCameraOp (narrow_axis (V16.camera_axis cam))
                    (V16.mat4dToMatrix4 (V16.projectionMatrix cam)).

Definition narrow_op (op : V16.Op) : Legacy.Op :=
  match op with
  | V16.Op_null => Legacy.Op_null
  | V16.Op_camera cam => Legacy.Op_camera (narrow_camera cam)
  | V16.Op_axis axis => Legacy.Op_axis (narrow_axis axis)
  | V16.Op_other => Legacy.Op_other
  end.

(** The same node, knobs and flags, wired to the narrowed provider. *)
Definition narrow_node (self : C44Matrix V16.Op) : C44Matrix Legacy.Op :=
  mkC44Matrix (_matrixFrom self) (_matrixOption self) (array_mtx self)
              (_arrayKnob self) (_invert self) (_transpose self) (_w_divide self)
              (knob self) (narrow_op (input1 self)) (input_format self).

(** Further inputs of the examples: a node with the identity as its
    effective matrix and no divide, and row stores with one special
    pixel. *)
Definition identity_node : C44Matrix unit :=
  Sample.node 0 0 [] false false false tt.

Definition fthird : float := fdiv f1 (fadd f2 f1).

Definition thirds : Rows := fun _ _ _ => fthird.

Definition infinite_alpha : Rows :=
  fun _ c _ => match c with Chan_Alpha => Float (S754_infinity false) | _ => f1 end.

Definition negative_zero_red : Rows :=
  fun _ c _ => match c with Chan_Red => Float (S754_zero true) | _ => f1 end.

Definition axis_node : C44Matrix V16.Op :=
  Sample.node FromProvider 7 [] false false false
              (V16.Op_axis (V16.camera_axis tenth_camera)).

(** The node driven by the camera's projection after the host has stored
    the live values of frame 1 in its array knob, with the transpose
    flag set. *)
Definition stored_projection_node : C44Matrix V16.Op :=
  Sample.node FromProvider Projection
    (float_of_double
       <$> V16.provideValues (ops := Sample.ops) (host := Sample.host16)
             projection_node Sample.frame1)
    false true false (V16.Op_camera tenth_camera).

(** The cases of an extraction option, as far as the switches look. *)
Ltac option_cases option :=
  destruct option as [|[[[?|?|]|[?|?|]|]|[[?|?|]|[?|?|]|]|]|?].

(* ===================================================================== *)
(** * Properties of the pixel kernel *)
(* ===================================================================== *)

Section Kernel.
Context {Op : Type}.
Implicit Types (self : C44Matrix Op) (h : Rows) (X : Z) (c : Channel).

Lemma row_write_same h ref c X v : row_write h ref c X v ref c X = v.
Proof. unfold row_write. by rewrite !decide_True. Qed.

Lemma row_write_other_pixel h ref c X v ref' c' X' :
  X' <> X -> row_write h ref c X v ref' c' X' = h ref' c' X'.
Proof. intros ?. unfold row_write. repeat case_decide; congruence. Qed.

Lemma row_write_other_row h ref c X v ref' c' X' :
  ref' <> ref -> row_write h ref c X v ref' c' X' = h ref' c' X'.
Proof. intros ?. unfold row_write. repeat case_decide; congruence. Qed.

Lemma row_write_other_channel h ref c X v ref' c' X' :
  c' <> c -> row_write h ref c X v ref' c' X' = h ref' c' X'.
Proof. intros ?. unfold row_write. repeat case_decide; congruence. Qed.

(** One turn writes, at its own coordinate of the output row, the value
    computed from the input pixel at that coordinate as it was before the
    turn: the four reads come first, also when the two rows are one. *)
Lemma pixel_body_written self in_ out X h :
  pixel_at (pixel_body self in_ out X h out) X
  = pixel_value self (pixel_at (h in_) X).
Proof.
  unfold pixel_body, pixel_value, pixel_at; cbn zeta.
  set (pw := if _w_divide self then _ else _).
  unfold row_write.
  rewrite !(decide_True (P := out = out)), !(decide_True (P := X = X)) by done.
  repeat (first [rewrite decide_True by done | rewrite decide_False by discriminate]).
  by destruct pw.
Qed.

(** One turn touches no other coordinate, in any row. *)
Lemma pixel_body_other_pixel self in_ out X h ref c X' :
  X' <> X -> pixel_body self in_ out X h ref c X' = h ref c X'.
Proof.
  intros ?. unfold pixel_body; cbn zeta.
  by rewrite !row_write_other_pixel.
Qed.

(** One turn touches no row but the output row. *)
Lemma pixel_body_other_row self in_ out X h ref c X' :
  ref <> out -> pixel_body self in_ out X h ref c X' = h ref c X'.
Proof.
  intros ?. unfold pixel_body; cbn zeta.
  by rewrite !row_write_other_row.
Qed.

(** One turn touches no channel but the four of the pixel. *)
Lemma pixel_body_other_channel self in_ out X h ref n X' :
  pixel_body self in_ out X h ref (Chan_Other n) X' = h ref (Chan_Other n) X'.
Proof.
  unfold pixel_body; cbn zeta.
  by rewrite !row_write_other_channel.
Qed.

Lemma pixel_at_ext (row row' : Row) X :
  (forall c, row c X = row' c X) -> pixel_at row X = pixel_at row' X.
Proof. intros E. unfold pixel_at. by rewrite !E. Qed.

(** A pass over a list of coordinates leaves the others alone. *)
Lemma in_order_untouched self in_ out order h ref c X :
  X ∉ order ->
  pixel_engine_in_order self in_ out order h ref c X = h ref c X.
Proof.
  unfold pixel_engine_in_order.
  revert h. induction order as [|X0 order IH]; intros h Hnot; [done|].
  apply not_elem_of_cons in Hnot as [Hne Hnot]. cbn [foldl].
  rewrite IH by done. by apply pixel_body_other_pixel.
Qed.

(** A pass that visits a coordinate once writes there the value of the
    input pixel at that coordinate. *)
Lemma in_order_written self in_ out order h X :
  NoDup order -> X ∈ order ->
  pixel_at (pixel_engine_in_order self in_ out order h out) X
  = pixel_value self (pixel_at (h in_) X).
Proof.
  revert h. induction order as [|X0 order IH]; intros h Hnd Hin.
  - by apply elem_of_nil in Hin.
  - apply NoDup_cons in Hnd as [Hfresh Hnd].
    change (pixel_engine_in_order self in_ out (X0 :: order) h)
      with (pixel_engine_in_order self in_ out order (pixel_body self in_ out X0 h)).
    destruct (decide (X = X0)) as [->|Hne].
    + rewrite <- (pixel_body_written self in_ out X0 h).
      apply pixel_at_ext. intros c. by apply in_order_untouched.
    + apply elem_of_cons in Hin as [?|Hin]; [done|].
      rewrite IH by done. f_equal.
      apply pixel_at_ext. intros c. by apply pixel_body_other_pixel.
Qed.

(** The loop of the source is the pass from [X] rightwards. *)
Lemma pixel_loop_in_order self in_ out turns X h :
  pixel_loop self in_ out turns X h
  = pixel_engine_in_order self in_ out (seqZ X (Z.of_nat turns)) h.
Proof.
  revert X h. induction turns as [|turns IH]; intros X h; [done|].
  rewrite seqZ_cons by lia. cbn [pixel_loop].
  rewrite IH. unfold pixel_engine_in_order. cbn [foldl].
  do 3 f_equal. lia.
Qed.

Lemma pixel_engine_in_order_eq self in_ y x r channels out h :
  pixel_engine self false in_ y x r channels out h
  = pixel_engine_in_order self in_ out (seqZ x (r - x)) h.
Proof.
  unfold pixel_engine. rewrite pixel_loop_in_order.
  destruct (decide (0 <= r - x)).
  - by rewrite Z2Nat.id.
  - replace (Z.to_nat (r - x)) with 0%nat by lia.
    by rewrite (seqZ_nil _ (r - x)) by lia.
Qed.

(** The kernel, pixel by pixel: inside the span the output pixel is the
    value of the input pixel at the same coordinate. *)
Lemma pixel_engine_written self in_ y x r channels out h X :
  x <= X < r ->
  pixel_at (pixel_engine self false in_ y x r channels out h out) X
  = pixel_value self (pixel_at (h in_) X).
Proof.
  intros ?. rewrite pixel_engine_in_order_eq.
  apply in_order_written; [apply NoDup_seqZ|].
  apply elem_of_seqZ. lia.
Qed.

Lemma in_order_other_row self in_ out order h ref c X :
  ref <> out ->
  pixel_engine_in_order self in_ out order h ref c X = h ref c X.
Proof.
  intros ?. unfold pixel_engine_in_order.
  revert h. induction order as [|X0 order IH]; intros h; [done|].
  cbn [foldl]. rewrite IH. by apply pixel_body_other_row.
Qed.

Lemma in_order_other_channel self in_ out order h ref n X :
  pixel_engine_in_order self in_ out order h ref (Chan_Other n) X
  = h ref (Chan_Other n) X.
Proof.
  unfold pixel_engine_in_order.
  revert h. induction order as [|X0 order IH]; intros h; [done|].
  cbn [foldl]. rewrite IH. apply pixel_body_other_channel.
Qed.

(** Outside the span, in the other rows and in the other channels the
    store is as before; and an aborted call changes nothing at all. *)
Lemma pixel_engine_untouched self aborted in_ y x r channels out h ref c X :
  aborted = true \/ ~ (x <= X < r) \/ ref <> out \/ (exists n, c = Chan_Other n) ->
  pixel_engine self aborted in_ y x r channels out h ref c X = h ref c X.
Proof.
  intros Hcase. destruct aborted; [done|].
  rewrite pixel_engine_in_order_eq.
  destruct Hcase as [?|[Hout|[?|[n ->]]]]; [done| | |].
  - apply in_order_untouched. rewrite elem_of_seqZ. lia.
  - by apply in_order_other_row.
  - apply in_order_other_channel.
Qed.

Lemma fdiv_zero_divisor a d :
  is_zero d = true ->
  is_nan (fdiv a d) = is_zero a || is_nan a
  /\ is_inf (fdiv a d) = negb (is_zero a || is_nan a).
Proof. destruct a as [[]], d as [[]]; by intros [=]. Qed.

Lemma fdiv_zero_by_itself d : is_zero d = true -> is_nan (fdiv d d) = true.
Proof. destruct d as [[]]; by intros [=]. Qed.

Lemma fdiv_quotient_by_zero a d : is_zero d = true -> quotient_by_zero a (fdiv a d).
Proof.
  intros Hd. unfold quotient_by_zero.
  destruct (fdiv_zero_divisor a d Hd) as [-> ->].
  by destruct (is_zero a || is_nan a).
Qed.

(** C5. With the perspective divide enabled, every output pixel of the
    span holds the four components of the transformed input pixel, each
    divided by the transformed W; in particular, where the input pixel is
    (1, 1, 1, 1) and the matrix maps it to (1, 1, 1, 2), the output pixel
    is (0.5, 0.5, 0.5, 1.0). *)
Theorem perspective_divide_by_w self in_ y x r channels out h X :
  _w_divide self = true -> x <= X < r ->
  let pw := transform (array_mtx self) (pixel_at (h in_) X) in
  let result := pixel_at (pixel_engine self false in_ y x r channels out h out) X in
  result = mkVector4 (fdiv (DDImage.x pw) (w pw)) (fdiv (DDImage.y pw) (w pw))
                     (fdiv (z pw) (w pw)) (fdiv (w pw) (w pw))
  /\ (pixel_at (h in_) X = mkVector4 f1 f1 f1 f1 ->
      pw = mkVector4 f1 f1 f1 f2 ->
      result = mkVector4 fhalf fhalf fhalf f1).
Proof.
  intros Hdiv Hspan pw result.
  assert (result = Vector4_div pw (w pw)) as Hres.
  { unfold result. rewrite pixel_engine_written by done.
    unfold pixel_value. by rewrite Hdiv. }
  split; [done|].
  intros _ Hpw. rewrite Hres, Hpw. reflexivity.
Qed.

(** C6. With the perspective divide enabled, a pixel of the span whose
    transformed W is a zero is written like any other: its four output
    channels hold the four quotients by that zero, so the output W is a
    NaN and each of the other three is an infinity, or a NaN where the
    transformed component is itself a zero or a NaN. The kernel is a total
    function and has no branch on W. *)
Theorem zero_w_pixel_still_written self in_ y x r channels out h X :
  _w_divide self = true -> x <= X < r ->
  let pw := transform (array_mtx self) (pixel_at (h in_) X) in
  is_zero (w pw) = true ->
  let result := pixel_at (pixel_engine self false in_ y x r channels out h out) X in
  result = Vector4_div pw (w pw)
  /\ is_nan (w result) = true
  /\ quotient_by_zero (DDImage.x pw) (DDImage.x result)
  /\ quotient_by_zero (DDImage.y pw) (DDImage.y result)
  /\ quotient_by_zero (z pw) (z result).
Proof.
  intros Hdiv Hspan pw Hzero result.
  assert (result = Vector4_div pw (w pw)) as ->.
  { unfold result. rewrite pixel_engine_written by done.
    unfold pixel_value. by rewrite Hdiv. }
  split; [done|]. cbn [Vector4_div DDImage.x DDImage.y z w].
  auto using fdiv_zero_by_itself, fdiv_quotient_by_zero.
Qed.

(** C7. The output at a coordinate of the span depends on the input pixel
    at that coordinate and on nothing else: two runs of the kernel with
    the same matrix and flag, on any two row stores whose input rows agree
    at [X], write the same pixel at [X], whatever the other pixels hold,
    whatever the output rows held before, and also when a run works in
    place (input row and output row being one). Nor does the order
    matter: any pass of the loop body that visits [X] once writes that
    same pixel. *)
Theorem pixels_are_independent self y x r channels
    in1 out1 h1 in2 out2 h2 (order : list Z) X :
  x <= X < r ->
  pixel_at (h1 in1) X = pixel_at (h2 in2) X ->
  NoDup order -> X ∈ order ->
  pixel_at (pixel_engine self false in1 y x r channels out1 h1 out1) X
  = pixel_at (pixel_engine self false in2 y x r channels out2 h2 out2) X
  /\ pixel_at (pixel_engine_in_order self in2 out2 order h2 out2) X
     = pixel_at (pixel_engine self false in1 y x r channels out1 h1 out1) X.
Proof.
  intros Hspan Hagree Hnodup Hvisit.
  rewrite !pixel_engine_written by done.
  rewrite in_order_written by done.
  by rewrite Hagree.
Qed.

End Kernel.

Lemma perspective_divide_by_w_witness :
  (_w_divide (w_node f2) = true /\ 0 <= 2 < 3)
  /\ pixel_at (pixel_engine (w_node f2) false 0%nat 0 0 3 (fun _ => true) 1%nat
                            Sample.white 1%nat) 2
     = mkVector4 fhalf fhalf fhalf f1.
Proof.
  split; [split; [reflexivity | lia]|].
  refine (proj2 (perspective_divide_by_w (w_node f2) 0%nat 0 0 3 (fun _ => true)
                   1%nat Sample.white 2 _ _) _ _);
    [reflexivity | lia | reflexivity | vm_compute; reflexivity].
Defined.

Lemma zero_w_pixel_still_written_witness :
  (_w_divide (w_node f0) = true /\ 0 <= 2 < 3
   /\ is_zero (w (transform (array_mtx (w_node f0)) (pixel_at (Sample.white 0%nat) 2))) = true)
  /\ pixel_at (pixel_engine (w_node f0) false 0%nat 0 0 3 (fun _ => true) 1%nat
                            Sample.white 1%nat) 2
     = mkVector4 (Float (S754_infinity false)) (Float (S754_infinity false))
                 (Float (S754_infinity false)) (Float S754_nan).
Proof.
  split; [split; [reflexivity | split; [lia | vm_compute; reflexivity]]|].
  refine (eq_trans
            (proj1 (zero_w_pixel_still_written (w_node f0) 0%nat 0 0 3 (fun _ => true)
                      1%nat Sample.white 2 _ _ _)) _);
    [reflexivity | lia | vm_compute; reflexivity | vm_compute; reflexivity].
Defined.

(** Two stores that agree at coordinate 2 of row 0 and differ at
    coordinate 0; the second run works in place and back to front. *)
Lemma pixels_are_independent_witness :
  (0 <= 2 < 3
   /\ pixel_at (Sample.white 0%nat) 2 = pixel_at (white_but_first 0%nat) 2
   /\ NoDup [2; 1; 0] /\ 2 ∈ [2; 1; 0])
  /\ pixel_at (pixel_engine (w_node f2) false 0%nat 0 0 3 (fun _ => true) 1%nat
                            Sample.white 1%nat) 2
     = pixel_at (pixel_engine (w_node f2) false 0%nat 0 0 3 (fun _ => true) 0%nat
                              white_but_first 0%nat) 2
  /\ pixel_at (pixel_engine_in_order (w_node f2) 0%nat 0%nat [2; 1; 0]
                                     white_but_first 0%nat) 2
     = pixel_at (pixel_engine (w_node f2) false 0%nat 0 0 3 (fun _ => true) 1%nat
                              Sample.white 1%nat) 2.
Proof.
  assert (NoDup [2; 1; 0]) as Hnd by compute_done.
  assert (2 ∈ [2; 1; 0]) as Hin by compute_done.
  split; [split; [lia | split; [reflexivity | done]]|].
  apply (pixels_are_independent (w_node f2) 0 0 3 (fun _ => true)
           0%nat 1%nat Sample.white 0%nat 0%nat white_but_first [2; 1; 0] 2);
    [lia | reflexivity | done | done].
Defined.

(* ===================================================================== *)
(** * Properties of the conditioning *)
(* ===================================================================== *)

Section Conditioning.
Context {Op : Type} {ops : Matrix4Ops}.
Implicit Types (self : C44Matrix Op).

(** A flat array of 16 numbers and the matrix built from it hold the same
    numbers in the same order. *)
Lemma array_Mat4_of_array {A} `{Inhabited A} (arr : list A) :
  length arr = 16%nat -> array (Mat4_of_array arr) = arr.
Proof.
  intros Hlen.
  do 17 (destruct arr as [|? arr]; try discriminate Hlen).
  reflexivity.
Qed.

Lemma Mat4_of_array_array {A} `{Inhabited A} (m : Mat4 A) :
  Mat4_of_array (array m) = m.
Proof. by destruct m. Qed.

Lemma transpose_involutive (m : Matrix4) : transpose (transpose m) = m.
Proof. by destruct m. Qed.

(** [_validate] changes the cached matrix and nothing else. *)
Lemma _validate_flags self for_real :
  _invert (_validate self for_real) = _invert self
  /\ _transpose (_validate self for_real) = _transpose self
  /\ _w_divide (_validate self for_real) = _w_divide self
  /\ _arrayKnob (_validate self for_real) = _arrayKnob self.
Proof. done. Qed.

(** The effective matrix after [_validate], step by step. *)
Lemma _validate_array_mtx self for_real :
  array_mtx (_validate self for_real)
  = let m := Mat4_of_array (array_data (_arrayKnob self)) in
    let m := if _transpose self then transpose m else m in
    if _invert self then inverse m else m.
Proof. reflexivity. Qed.

(** C1. The conditioning of [_validate] transposes first and inverts
    second: with [M] the matrix read from the array knob, the effective
    matrix is [inverse (transpose M)] with both flags set, [transpose M]
    or [inverse M] with one, and [M] with none. *)
Theorem transpose_then_invert self for_real :
  let M := Mat4_of_array (array_data (_arrayKnob self)) in
  array_mtx (_validate self for_real)
  = match _transpose self, _invert self with
    | true, true => inverse (transpose M)
    | true, false => transpose M
    | false, true => inverse M
    | false, false => M
    end.
Proof.
  rewrite _validate_array_mtx; cbn zeta.
  by destruct (_transpose self), (_invert self).
Qed.

(** C2. With neither flag set, the effective matrix that [pixel_engine]
    reads holds the 16 numbers of the array knob, in the same order: the
    entry of row [r] and column [c] is number [4 * r + c] of the array.
    This holds in every mode, the manual one included. *)
Theorem manual_matrix_is_raw_array self for_real :
  length (array_data (_arrayKnob self)) = 16%nat ->
  _invert self = false -> _transpose self = false ->
  array (array_mtx (_validate self for_real)) = array_data (_arrayKnob self)
  /\ forall r c, (r < 4)%nat -> (c < 4)%nat ->
       entry (array_mtx (_validate self for_real)) r c
       = array_data (_arrayKnob self) !!! (4 * r + c)%nat.
Proof.
  intros Hlen Hinv Htr.
  assert (array (array_mtx (_validate self for_real))
          = array_data (_arrayKnob self)) as E.
  { rewrite _validate_array_mtx, Hinv, Htr. by apply array_Mat4_of_array. }
  split; [done|]. intros r c _ _. unfold entry. by rewrite E.
Qed.

End Conditioning.

Lemma manual_matrix_is_raw_array_witness :
  (length (array_data (_arrayKnob manual_node)) = 16%nat
   /\ _invert manual_node = false /\ _transpose manual_node = false)
  /\ array (array_mtx (_validate (ops := Sample.ops) manual_node true)) = one_to_16
  /\ entry (array_mtx (_validate (ops := Sample.ops) manual_node true)) 1 2
     = float_of_int 7.
Proof.
  split; [by repeat split|].
  destruct (manual_matrix_is_raw_array (ops := Sample.ops) manual_node true
              eq_refl eq_refl eq_refl) as [Harr Hentry].
  split; [exact Harr|].
  rewrite (Hentry 1%nat 2%nat) by lia. reflexivity.
Defined.

(* ===================================================================== *)
(** * Properties of the copy into the caller's buffer *)
(* ===================================================================== *)

Section Copy.
Implicit Types (mtx_vals : list float) (values : list double) (count i : nat).

Lemma copy_values_S mtx_vals count values :
  copy_values mtx_vals (S count) values
  = <[count := double_of_float (mtx_vals !!! count)]> (copy_values mtx_vals count values).
Proof. unfold copy_values. by rewrite seq_S, foldl_app. Qed.

Lemma copy_values_length mtx_vals count values :
  length (copy_values mtx_vals count values) = length values.
Proof.
  induction count as [|count IH]; [done|].
  by rewrite copy_values_S, length_insert.
Qed.

(** The entries below [count] hold the converted numbers (as far as the
    buffer reaches). *)
Lemma copy_values_written mtx_vals count values i :
  (i < count)%nat -> (i < length values)%nat ->
  copy_values mtx_vals count values !! i = Some (double_of_float (mtx_vals !!! i)).
Proof.
  intros Hi Hlen. induction count as [|count IH]; [lia|].
  rewrite copy_values_S.
  destruct (decide (i = count)) as [->|Hne].
  - apply list_lookup_insert_eq. by rewrite copy_values_length.
  - rewrite list_lookup_insert_ne by done. apply IH. lia.
Qed.

(** The entries from [count] on are not written. *)
Lemma copy_values_kept mtx_vals count values i :
  (count <= i)%nat -> copy_values mtx_vals count values !! i = values !! i.
Proof.
  intros Hi. induction count as [|count IH]; [done|].
  rewrite copy_values_S, list_lookup_insert_ne by lia. apply IH. lia.
Qed.

(** Copying all 16 entries of a matrix into a vector of 16. *)
Lemma copy_values_all (m : Matrix4) :
  copy_values (array m) 16 (replicate 16 d0) = double_of_float <$> array m.
Proof. by destruct m. Qed.

End Copy.

Lemma identity_values_eq : double_of_float <$> array makeIdentity = identity_values.
Proof. reflexivity. Qed.

(* ===================================================================== *)
(** * Properties of the extraction and of the live-value bridge *)
(* ===================================================================== *)

Section Bridge.
Context {ops : Matrix4Ops} {host : V16.Host} {host_legacy : Legacy.Host}.
Implicit Types (self : C44Matrix V16.Op) (legacy : C44Matrix Legacy.Op).
Implicit Types (oc : OutputContext) (values : list double).

Lemma provideValues_eq self oc :
  V16.provideValues self oc = double_of_float <$> array (bridge_matrix self oc).
Proof. unfold V16.provideValues; cbn zeta. apply copy_values_all. Qed.

Lemma provideValues_buffer_eq values nValues self oc :
  V16.provideValues_buffer values nValues self oc
  = copy_values (array (bridge_matrix self oc)) (Nat.min nValues 16) values.
Proof. reflexivity. Qed.

Lemma legacy_provideValues_eq legacy oc :
  Legacy.provideValues legacy oc
  = double_of_float <$> array (Legacy.provided_matrix legacy oc).
Proof. unfold Legacy.provideValues; cbn zeta. by destruct (Legacy.provided_matrix _ _). Qed.

Lemma mat4dToMatrix4_array (src : Mat4d) :
  array (V16.mat4dToMatrix4 src) = float_of_double <$> array src.
Proof. by destruct src. Qed.

(** Through [_getInputMatrix] the camera is validated first, then read. *)
Lemma _getInputMatrix_camera self oc cam :
  input1 self = V16.Op_camera cam ->
  V16._getInputMatrix self oc
  = V16.getCameraMatrix (V16.validate_camera cam) (option_at self oc) (input_format self).
Proof. intros E. unfold V16._getInputMatrix. by rewrite E. Qed.

Lemma _getInputMatrix_axis self oc axis :
  input1 self = V16.Op_axis axis ->
  V16._getInputMatrix self oc
  = V16.getAxisMatrix (V16.validate_axis axis) (option_at self oc).
Proof. intros E. unfold V16._getInputMatrix. by rewrite E. Qed.

(** The original variant hands out the camera's projection matrix as it
    is (its host provides single-precision matrices), and the identity
    for an axis. *)
Lemma legacy_projection_extraction legacy oc :
  from_provider_at legacy oc = true -> option_at legacy oc = Projection ->
  (forall cam, input1 legacy = Legacy.Op_camera cam ->
     Legacy.provided_matrix legacy oc = Legacy.projection (Legacy.validate_camera cam))
  /\ (forall axis, input1 legacy = Legacy.Op_axis axis ->
        Legacy.provided_matrix legacy oc = makeIdentity).
Proof.
  unfold from_provider_at, option_at. intros Hmode Hopt.
  split; intros ? E; unfold Legacy.provided_matrix; cbn zeta;
    unfold FromProvider in Hmode; rewrite Hmode, E; cbn; by rewrite Hopt.
Qed.

(** C3. For a camera, the extraction of the projection returns the
    camera's projection matrix unmodified: no decomposition and no
    conditioning is applied to it, the result is that matrix as the
    [Matrix4] the extractor returns, which in the port means each entry
    brought from double to single precision at the point of conversion
    (section 4.2 of the specification) and in the original variant, whose
    host provides single-precision matrices, the matrix itself. For an
    axis the extraction returns the identity, whatever the axis holds. *)
Theorem projection_extraction (cam : V16.CameraOp) (axis : V16.AxisOp) (fmt : Format)
    legacy oc :
  (V16.getCameraMatrix cam Projection fmt
   = V16.mat4dToMatrix4 (V16.projectionMatrix cam)
   /\ array (V16.getCameraMatrix cam Projection fmt)
      = float_of_double <$> array (V16.projectionMatrix cam)
   /\ V16.getAxisMatrix axis Projection = makeIdentity)
  /\ (from_provider_at legacy oc = true -> option_at legacy oc = Projection ->
      (forall cam', input1 legacy = Legacy.Op_camera cam' ->
         Legacy.provided_matrix legacy oc
         = Legacy.projection (Legacy.validate_camera cam'))
      /\ (forall axis', input1 legacy = Legacy.Op_axis axis' ->
            Legacy.provided_matrix legacy oc = makeIdentity)).
Proof.
  split; [split; [reflexivity | split; [apply mat4dToMatrix4_array | reflexivity]]|].
  apply legacy_projection_extraction.
Qed.

(** C4. With nothing connected to the second input, or an operator that
    is neither a camera nor an axis, the extraction returns the identity
    matrix, for every option and context, and the live values are those of
    the identity. The functions are total: there is no error to signal.
    This holds in both variants. *)
Theorem no_provider_gives_identity self legacy oc :
  input1 self = V16.Op_null \/ input1 self = V16.Op_other ->
  input1 legacy = Legacy.Op_null \/ input1 legacy = Legacy.Op_other ->
  V16._getInputMatrix self oc = makeIdentity
  /\ V16.provideValues self oc = identity_values
  /\ Legacy.provided_matrix legacy oc = makeIdentity
  /\ Legacy.provideValues legacy oc = identity_values.
Proof.
  intros Hin Hin'.
  assert (V16._getInputMatrix self oc = makeIdentity) as E.
  { unfold V16._getInputMatrix. by destruct Hin as [-> | ->]. }
  assert (Legacy.provided_matrix legacy oc = makeIdentity) as E'.
  { unfold Legacy.provided_matrix; cbn zeta.
    destruct (double_eqb _ _); [|done]. by destruct Hin' as [-> | ->]. }
  rewrite provideValues_eq, legacy_provideValues_eq.
  unfold bridge_matrix. rewrite E, E'.
  by destruct (from_provider_at self oc).
Qed.

(** C8. In manual mode the bridge is disabled and its values are the 16
    numbers of the identity matrix, whatever is connected to the second
    input and whatever the context. This holds in both variants. *)
Theorem manual_mode_bridge self legacy oc :
  get_value (knob self "matrixFrom") = double_of_int Manual ->
  get_value_at (knob self "matrixFrom") (frame oc) (view oc) = double_of_int Manual ->
  get_value (knob legacy "matrixFrom") = double_of_int Manual ->
  get_value_at (knob legacy "matrixFrom") (frame oc) (view oc) = double_of_int Manual ->
  V16.provideValuesEnabled self oc = false
  /\ V16.provideValues self oc = identity_values
  /\ Legacy.provideValuesEnabled legacy oc = false
  /\ Legacy.provideValues legacy oc = identity_values.
Proof.
  intros Hnow Hat Hnow' Hat'.
  unfold V16.provideValuesEnabled, Legacy.provideValuesEnabled.
  rewrite Hnow, Hnow', provideValues_eq, legacy_provideValues_eq.
  unfold bridge_matrix, from_provider_at, Legacy.provided_matrix; cbn zeta.
  by rewrite Hat, Hat'.
Qed.

(** C9. The two live-value queries of the port agree: for a count [n] of
    at most 16 and a buffer of at least [n] entries, the first [n] entries
    of the buffer after the buffer query are the first [n] entries of the
    vector the vector query returns. *)
Theorem buffer_query_agrees_with_vector_query values n self oc :
  (n <= 16)%nat -> (n <= length values)%nat ->
  take n (V16.provideValues_buffer values n self oc)
  = take n (V16.provideValues self oc).
Proof.
  intros Hn Hlen.
  rewrite provideValues_buffer_eq, provideValues_eq, <- copy_values_all.
  apply list_eq. intros i.
  destruct (decide (i < n)%nat) as [Hi|Hi].
  - rewrite !lookup_take_lt by done.
    rewrite !copy_values_written; [done | lia | rewrite length_replicate; lia | lia | lia].
  - by rewrite !lookup_take_ge by lia.
Qed.

(** C10. The buffer query writes the first [min nValues 16] entries of
    the buffer, each with the corresponding number of the matrix, and
    leaves every later entry as it was; the buffer keeps its length. This
    holds for [nValues = 0] and for [nValues > 16] alike. *)
Theorem buffer_query_frame values nValues self oc :
  (nValues <= length values)%nat ->
  let values' := V16.provideValues_buffer values nValues self oc in
  length values' = length values
  /\ (forall i, (i < Nat.min nValues 16)%nat ->
        values' !! i = Some (double_of_float (array (bridge_matrix self oc) !!! i)))
  /\ (forall i, (Nat.min nValues 16 <= i)%nat -> values' !! i = values !! i).
Proof.
  intros Hlen values'. unfold values'. rewrite provideValues_buffer_eq.
  split; [apply copy_values_length|].
  split; intros i Hi.
  - apply copy_values_written; lia.
  - by apply copy_values_kept.
Qed.

End Bridge.

(** A note on precision: one tenth, as [tenth_camera] holds it, is a
    binary64 datum that single precision does not hold; the conversion of
    the port rounds it to its single-precision neighbour. *)
Lemma tenth_is_binary64 : valid_binary 53 1024 (double_bits Sample.d_tenth) = true.
Proof. reflexivity. Qed.

Lemma tenth_narrowed :
  double_of_float (float_of_double Sample.d_tenth)
  = Double (S754_finite false 7205759511166976 (-56)).
Proof. reflexivity. Qed.

Lemma projection_extraction_witness :
  (from_provider_at legacy_projection_node Sample.frame1 = true
   /\ option_at legacy_projection_node Sample.frame1 = Projection
   /\ input1 legacy_projection_node = Legacy.Op_camera legacy_camera)
  /\ V16.getCameraMatrix (ops := Sample.ops) (host := Sample.host16)
       tenth_camera Projection Sample.HD
     = V16.mat4dToMatrix4 (V16.projectionMatrix tenth_camera)
  /\ array (V16.getCameraMatrix (ops := Sample.ops) (host := Sample.host16)
              tenth_camera Projection Sample.HD)
     = float_of_double <$> array (V16.projectionMatrix tenth_camera)
  /\ Legacy.provided_matrix (ops := Sample.ops) (host := Sample.host_legacy)
       legacy_projection_node Sample.frame1
     = Legacy.projection legacy_camera.
Proof.
  split; [by repeat split|].
  destruct (projection_extraction (ops := Sample.ops) (host := Sample.host16)
              (host_legacy := Sample.host_legacy)
              tenth_camera (V16.camera_axis tenth_camera) Sample.HD
              legacy_projection_node Sample.frame1) as [(Hcam & Harr & _) Hlegacy].
  split; [exact Hcam|]. split; [exact Harr|].
  exact (proj1 (Hlegacy eq_refl eq_refl) legacy_camera eq_refl).
Defined.

Lemma no_provider_gives_identity_witness :
  ((input1 unconnected_node = V16.Op_null \/ input1 unconnected_node = V16.Op_other)
   /\ (input1 legacy_misconnected_node = Legacy.Op_null
       \/ input1 legacy_misconnected_node = Legacy.Op_other))
  /\ V16._getInputMatrix (ops := Sample.ops) (host := Sample.host16)
       unconnected_node Sample.frame1 = makeIdentity
  /\ V16.provideValues (ops := Sample.ops) (host := Sample.host16)
       unconnected_node Sample.frame1 = identity_values
  /\ Legacy.provided_matrix (ops := Sample.ops) (host := Sample.host_legacy)
       legacy_misconnected_node Sample.frame1 = makeIdentity
  /\ Legacy.provideValues (ops := Sample.ops) (host := Sample.host_legacy)
       legacy_misconnected_node Sample.frame1 = identity_values.
Proof.
  split; [split; [left | right]; reflexivity|].
  apply (no_provider_gives_identity (ops := Sample.ops)); [left | right]; reflexivity.
Defined.

Lemma manual_mode_bridge_witness :
  (get_value (knob manual_camera_node "matrixFrom") = double_of_int Manual
   /\ get_value (knob legacy_manual_node "matrixFrom") = double_of_int Manual)
  /\ V16.provideValuesEnabled manual_camera_node Sample.frame1 = false
  /\ V16.provideValues (ops := Sample.ops) (host := Sample.host16)
       manual_camera_node Sample.frame1 = identity_values
  /\ Legacy.provideValuesEnabled legacy_manual_node Sample.frame1 = false
  /\ Legacy.provideValues (ops := Sample.ops) (host := Sample.host_legacy)
       legacy_manual_node Sample.frame1 = identity_values.
Proof.
  split; [split; reflexivity|].
  apply (manual_mode_bridge (ops := Sample.ops)); reflexivity.
Defined.

Lemma buffer_query_agrees_with_vector_query_witness :
  ((3 <= 16)%nat /\ (3 <= length (replicate 5 d1))%nat)
  /\ take 3 (V16.provideValues_buffer (ops := Sample.ops) (host := Sample.host16)
               (replicate 5 d1) 3 projection_node Sample.frame1)
     = take 3 (V16.provideValues (ops := Sample.ops) (host := Sample.host16)
                 projection_node Sample.frame1).
Proof.
  split; [split; [lia | cbn; lia]|].
  apply (buffer_query_agrees_with_vector_query (ops := Sample.ops)); [lia | cbn; lia].
Defined.

Lemma buffer_query_frame_witness :
  (20 <= length (replicate 20 Sample.d_tenth))%nat
  /\ length (V16.provideValues_buffer (ops := Sample.ops) (host := Sample.host16)
               (replicate 20 Sample.d_tenth) 20 projection_node Sample.frame1)
     = 20%nat
  /\ V16.provideValues_buffer (ops := Sample.ops) (host := Sample.host16)
       (replicate 20 Sample.d_tenth) 20 projection_node Sample.frame1 !! 5%nat
     = Some d1
  /\ V16.provideValues_buffer (ops := Sample.ops) (host := Sample.host16)
       (replicate 20 Sample.d_tenth) 20 projection_node Sample.frame1 !! 16%nat
     = Some Sample.d_tenth.
Proof.
  assert (20 <= length (replicate 20 Sample.d_tenth))%nat as Hlen by (cbn; lia).
  split; [exact Hlen|].
  destruct (buffer_query_frame (ops := Sample.ops) (host := Sample.host16)
              (replicate 20 Sample.d_tenth) 20 projection_node Sample.frame1 Hlen)
    as (Hlength & Hwritten & Hkept).
  split; [exact Hlength|]. split.
  - rewrite (Hwritten 5%nat) by (cbn; lia). reflexivity.
  - rewrite (Hkept 16%nat) by (cbn; lia). reflexivity.
Defined.

(* ===================================================================== *)
(** * Single precision arithmetic: exact cases *)
(* ===================================================================== *)

Section Exact.

Lemma iter_pos_comm {A} (f : A -> A) p a :
  SpecFloat.iter_pos f p (f a) = f (SpecFloat.iter_pos f p a).
Proof.
  revert a. induction p as [p IH|p IH|]; intros a; cbn; [|by rewrite !IH|done].
  by rewrite !IH.
Qed.

Lemma iter_pos_succ {A} (f : A -> A) p a :
  SpecFloat.iter_pos f (Pos.succ p) a = SpecFloat.iter_pos f p (f a).
Proof.
  revert a. induction p as [p IH|p IH|]; intros a; [|done|done].
  change (SpecFloat.iter_pos f (Pos.succ p) (SpecFloat.iter_pos f (Pos.succ p) a)
          = SpecFloat.iter_pos f p (SpecFloat.iter_pos f p (f (f a)))).
  by rewrite !IH, !iter_pos_comm.
Qed.

(** Shifting a mantissa left by [d] bits and right again loses nothing. *)
Lemma shr_after_shl m d :
  SpecFloat.iter_pos shr_1 d
    {| shr_m := Zpos (Pos.iter xO m d); shr_r := false; shr_s := false |}
  = {| shr_m := Zpos m; shr_r := false; shr_s := false |}.
Proof.
  induction d as [|d IH] using Pos.peano_ind; [done|].
  by rewrite iter_pos_succ, Pos.iter_succ.
Qed.

Lemma digits2_shl m d : digits2_pos (Pos.iter xO m d) = (digits2_pos m + d)%positive.
Proof.
  induction d as [|d IH] using Pos.peano_ind; cbn.
  - lia.
  - rewrite Pos.iter_succ. cbn. rewrite IH. lia.
Qed.

Lemma bounded_single m e :
  bounded 24 128 m e = true ->
  Zpos (digits2_pos m) <= 24 /\ -149 <= e <= 104
  /\ fexp 24 128 (Zpos (digits2_pos m) + e) = e.
Proof.
  unfold bounded, canonical_mantissa, fexp, emin. intros H.
  apply andb_prop in H as [H1 H2]. apply Z.eqb_eq in H1. apply Z.leb_le in H2. lia.
Qed.

(** A single-precision mantissa shifted left by [d] bits, with the
    exponent lowered by [d], rounds back to itself. *)
Lemma round_aux_shl s m e d :
  bounded 24 128 m e = true ->
  binary_round_aux 24 128 s (Zpos (Pos.iter xO m d)) (e - Zpos d) loc_Exact
  = S754_finite s m e.
Proof.
  intros Hb. destruct (bounded_single m e Hb) as (Hd & He & Hf).
  unfold binary_round_aux, shr_fexp. cbn [Zdigits2]. rewrite digits2_shl.
  assert (fexp 24 128 (Z.pos (digits2_pos m + d) + (e - Z.pos d)) - (e - Z.pos d)
          = Zpos d) as ->.
  { replace (Z.pos (digits2_pos m + d) + (e - Z.pos d))
      with (Zpos (digits2_pos m) + e) by lia.
    rewrite Hf. lia. }
  cbn [shr shr_record_of_loc]. rewrite shr_after_shl.
  cbn [loc_of_shr_record round_nearest_even shr_m Zdigits2].
  replace (e - Z.pos d + Z.pos d) with e by lia.
  rewrite Hf, Z.sub_diag. cbn [shr shr_record_of_loc shr_m].
  by assert ((e <=? 128 - 24) = true) as -> by (apply Z.leb_le; lia).
Qed.

(** The double that holds a finite single-precision number. *)
Lemma widen_finite s m e :
  bounded 24 128 m e = true ->
  binary_round 53 1024 s m e
  = S754_finite s (Pos.iter xO m (Z.to_pos (53 - Zpos (digits2_pos m))))
                (e - (53 - Zpos (digits2_pos m))).
Proof.
  intros Hb. destruct (bounded_single m e Hb) as (Hd & He & Hf).
  unfold binary_round.
  set (dg := Zpos (digits2_pos m)) in *.
  assert (fexp 53 1024 (dg + e) = dg + e - 53) as -> by (unfold fexp, emin; lia).
  unfold shl_align.
  assert (dg + e - 53 - e = Zneg (Z.to_pos (53 - dg))) as -> by lia.
  set (d := Z.to_pos (53 - dg)).
  unfold binary_round_aux, shr_fexp. cbn [Zdigits2]. rewrite digits2_shl.
  assert (fexp 53 1024 (Z.pos (digits2_pos m + d) + (dg + e - 53)) - (dg + e - 53)
          = 0) as Hshift.
  { unfold fexp, emin. subst dg d. lia. }
  rewrite Hshift.
  cbn [shr shr_record_of_loc loc_of_shr_record round_nearest_even shr_m Zdigits2].
  rewrite digits2_shl, Hshift.
  cbn [shr shr_m].
  assert ((dg + e - 53 <=? 1024 - 53) = true) as -> by (apply Z.leb_le; lia).
  f_equal. lia.
Qed.

(** [(float) (double) a] is [a]. *)
Lemma narrow_after_widen a :
  valid_float a = true -> float_of_double (double_of_float a) = a.
Proof.
  destruct a as [[sg|sg| |s m e]]; try done.
  unfold valid_float; cbn [float_bits valid_binary]. intros Hb.
  unfold double_of_float; cbn [float_bits]. rewrite widen_finite by done.
  unfold float_of_double; cbn [double_bits]. f_equal.
  destruct (bounded_single m e Hb) as (Hd & He & Hf).
  set (d := Z.to_pos (53 - Z.pos (digits2_pos m))).
  replace (53 - Z.pos (digits2_pos m)) with (Zpos d) by (subst d; lia).
  unfold binary_round. rewrite digits2_shl.
  replace (Z.pos (digits2_pos m + d) + (e - Z.pos d))
    with (Zpos (digits2_pos m) + e) by lia.
  rewrite Hf. unfold shl_align.
  replace (e - (e - Z.pos d)) with (Zpos d) by lia.
  by apply round_aux_shl.
Qed.

(** [1.0f * a] is [a] for every number [a]. *)
Lemma fmul_one a :
  valid_float a = true -> is_number a = true -> fmul f1 a = a.
Proof.
  destruct a as [[sg|sg| |s m e]]; try done.
  unfold valid_float; cbn [float_bits valid_binary]. intros Hb _.
  unfold fmul, f1. f_equal. cbn [float_bits].
  change (SFone 24 128) with (S754_finite false 8388608 (-23)).
  cbn [SFmul xorb].
  change (Pos.mul 8388608 m) with (Pos.iter xO m 23).
  replace (-23 + e) with (e - 23) by lia.
  by apply round_aux_shl.
Qed.

(** A finite number other than zero divided by itself is [1.0f]. *)
Lemma fdiv_self a : is_finite_nonzero a = true -> fdiv a a = f1.
Proof.
  destruct a as [[sg|sg| |s m e]]; try done. intros _.
  unfold fdiv, f1. f_equal. cbn [float_bits SFdiv].
  unfold SFdiv_core_binary.
  rewrite !Z.sub_diag.
  change (Z.min (fexp 24 128 0) 0) with (-24).
  change (0 - -24) with 24.
  cbv iota beta zeta.
  assert (Z.div_eucl (Z.shiftl (Z.pos m) 24) (Z.pos m) = (16777216, 0)) as ->.
  { rewrite Z.shiftl_mul_pow2 by lia.
    pose proof (Z_div_mod (Z.pos m * 2 ^ 24) (Z.pos m) eq_refl) as H.
    destruct (Z.div_eucl _ _) as [q r]. destruct H as [H1 H2].
    change (2 ^ 24) with 16777216 in H1.
    assert (q = 16777216) as -> by nia.
    by assert (r = 0) as -> by lia. }
  rewrite xorb_nilpotent.
  assert (new_location (Z.pos m) 0 = loc_Exact) as ->.
  { unfold new_location, new_location_even, new_location_odd. by destruct (Z.even _). }
  reflexivity.
Qed.

(** Whatever is not a finite number other than zero, divided by itself,
    is a NaN. *)
Lemma fdiv_self_nan a : is_finite_nonzero a = false -> fdiv a a = NaN.
Proof. by destruct a as [[[]|[]| |s m e]]. Qed.

Lemma fmul_zero_number a :
  is_number a = true -> is_zero (fmul f0 a) = true.
Proof. by destruct a as [[sg|sg| |s m e]]. Qed.

Lemma fmul_zero_non_number a :
  is_number a = false -> fmul f0 a = NaN.
Proof. by destruct a as [[sg|sg| |s m e]]. Qed.

Lemma fmul_one_non_number a :
  is_number a = false -> is_number (fmul f1 a) = false.
Proof. by destruct a as [[sg|sg| |s m e]]. Qed.

Lemma fadd_nan_l a : fadd NaN a = NaN.
Proof. by destruct a as [[]]. Qed.

Lemma fadd_nan_r a : fadd a NaN = NaN.
Proof. by destruct a as [[]]. Qed.

(** Adding zeros to a number does not change it, but for the sign of a
    zero. *)
Lemma fadd_zero_r a z :
  is_number a = true -> is_zero z = true -> same_number (fadd a z) a.
Proof.
  destruct a as [[sa|sa| |s m e]], z as [[sz|sz| |? ? ?]]; try done; intros _ _.
  - right. by destruct sa, sz.
  - by left.
Qed.

Lemma fadd_zero_l a z :
  is_number a = true -> is_zero z = true -> same_number (fadd z a) a.
Proof.
  destruct a as [[sa|sa| |s m e]], z as [[sz|sz| |? ? ?]]; try done; intros _ _.
  - right. by destruct sa, sz.
  - by left.
Qed.

Lemma same_number_number a b :
  same_number a b -> is_number b = true -> is_number a = true.
Proof. intros [->|[Ha _]] ?; [done|]. by destruct a as [[]]. Qed.

Lemma same_number_zero a b :
  same_number a b -> is_zero b = true -> is_zero a = true.
Proof. by intros [->|[Ha _]] ?. Qed.

Lemma same_number_trans a b c : same_number a b -> same_number b c -> same_number a c.
Proof.
  intros [->|[Ha Hb]] [->|[Hb' Hc]]; try (by left); try (by right).
Qed.

End Exact.

(* ===================================================================== *)
(** * More on the pixel kernel *)
(* ===================================================================== *)

Section KernelMore.
Context {Op : Type}.
Implicit Types (self : C44Matrix Op) (h : Rows) (X : Z) (c : Channel).

(** X2. Two adjacent spans processed one after the other are the whole span
    processed at once, also in place: the host may cut a row into tiles. *)
Theorem pixel_engine_adjacent_spans self in_ y x m r channels out h :
  x <= m <= r ->
  pixel_engine self false in_ y m r channels out
    (pixel_engine self false in_ y x m channels out h)
  = pixel_engine self false in_ y x r channels out h.
Proof.
  intros Hspan. rewrite !pixel_engine_in_order_eq.
  replace (r - x) with ((m - x) + (r - m)) by lia.
  rewrite seqZ_app by lia. unfold pixel_engine_in_order.
  rewrite foldl_app. do 2 f_equal. lia.
Qed.

(** X3. With the perspective divide enabled the output alpha takes two values
    only: [1.0] where the transformed W is finite and not zero, a NaN
    where it is a zero, an infinity or a NaN. *)
Theorem divided_alpha_is_one_or_nan self in_ y x r channels out h X :
  _w_divide self = true -> x <= X < r ->
  w (pixel_at (pixel_engine self false in_ y x r channels out h out) X)
  = if is_finite_nonzero (w (transform (array_mtx self) (pixel_at (h in_) X)))
    then f1 else NaN.
Proof.
  intros Hdiv Hspan. rewrite pixel_engine_written by done.
  unfold pixel_value. rewrite Hdiv. cbn [Vector4_div w].
  destruct (is_finite_nonzero _) eqn:E; [by apply fdiv_self | by apply fdiv_self_nan].
Qed.

(** The identity matrix on a pixel of four numbers. *)
Lemma transform_identity_ordinary (v : Vector4) :
  ordinary_pixel v = true ->
  same_number (DDImage.x (transform makeIdentity v)) (DDImage.x v)
  /\ same_number (DDImage.y (transform makeIdentity v)) (DDImage.y v)
  /\ same_number (z (transform makeIdentity v)) (z v)
  /\ same_number (w (transform makeIdentity v)) (w v).
Proof.
  destruct v as [a b c d]. unfold ordinary_pixel, ordinary; cbn [DDImage.x DDImage.y z w].
  rewrite !andb_true_iff. intros [[[[Va Na] [Vb Nb]] [Vc Nc]] [Vd Nd]].
  unfold transform, dot4, makeIdentity;
    cbn [DDImage.x DDImage.y z w a00 a01 a02 a03 a10 a11 a12 a13
         a20 a21 a22 a23 a30 a31 a32 a33].
  rewrite (fmul_one a), (fmul_one b), (fmul_one c), (fmul_one d) by done.
  clear Va Vb Vc Vd.
  destruct a as [[sa|sa| |sa ma ea]]; try discriminate Na;
  destruct b as [[sb|sb| |sb mb eb]]; try discriminate Nb;
  destruct c as [[sc|sc| |sc mc ec]]; try discriminate Nc;
  destruct d as [[sd|sd| |sd md ed]]; try discriminate Nd;
  clear Na Nb Nc Nd;
  repeat split;
    repeat match goal with s : bool |- _ => destruct s end;
    first [ left; reflexivity | right; split; reflexivity ].
Qed.

(** X4. With the identity as effective matrix and no divide, a pixel of four
    numbers comes out as it went in, but for the sign of a zero (a
    negative zero may come out positive). *)
Theorem identity_passes_numbers self in_ y x r channels out h X :
  array_mtx self = makeIdentity -> _w_divide self = false -> x <= X < r ->
  ordinary_pixel (pixel_at (h in_) X) = true ->
  let p := pixel_at (h in_) X in
  let q := pixel_at (pixel_engine self false in_ y x r channels out h out) X in
  same_number (DDImage.x q) (DDImage.x p) /\ same_number (DDImage.y q) (DDImage.y p)
  /\ same_number (z q) (z p) /\ same_number (w q) (w p).
Proof.
  intros Hid Hdiv Hspan Hord p q. unfold q.
  rewrite pixel_engine_written by done.
  unfold pixel_value. rewrite Hdiv, Hid.
  by apply transform_identity_ordinary.
Qed.

(** X5. With the identity as effective matrix, an infinity or a NaN in one
    channel of a pixel turns the other three channels of the output pixel
    into NaNs: the zeros of the matrix multiply it. *)
Theorem identity_spreads_non_numbers self in_ y x r channels out h X :
  array_mtx self = makeIdentity -> _w_divide self = false -> x <= X < r ->
  let p := pixel_at (h in_) X in
  let q := pixel_at (pixel_engine self false in_ y x r channels out h out) X in
  (is_number (DDImage.x p) = false ->
     DDImage.y q = NaN /\ z q = NaN /\ w q = NaN)
  /\ (is_number (DDImage.y p) = false ->
        DDImage.x q = NaN /\ z q = NaN /\ w q = NaN)
  /\ (is_number (z p) = false ->
        DDImage.x q = NaN /\ DDImage.y q = NaN /\ w q = NaN)
  /\ (is_number (w p) = false ->
        DDImage.x q = NaN /\ DDImage.y q = NaN /\ z q = NaN).
Proof.
  intros Hid Hdiv Hspan p q. unfold q.
  rewrite pixel_engine_written by done.
  unfold pixel_value. rewrite Hdiv, Hid. fold p.
  destruct p as [a b c d].
  unfold transform, dot4, makeIdentity;
    cbn [DDImage.x DDImage.y z w a00 a01 a02 a03 a10 a11 a12 a13
         a20 a21 a22 a23 a30 a31 a32 a33].
  split; [|split; [|split]]; intros Hnon;
    rewrite (fmul_zero_non_number _ Hnon);
    repeat (rewrite fadd_nan_l || rewrite fadd_nan_r); done.
Qed.

(** X6. The kernel and the channel sets the node declares: the output pixels
    of a span are determined by the channels of the input row that
    [in_channels] and [_request] ask for, and the kernel writes no channel
    outside the set that [_validate] announces. *)
Theorem kernel_within_declared_channels self in_ y x r t channels out count
    (mask member_channels : ChannelSet) h h' X :
  x <= X < r ->
  ((forall c, in_channels 0 mask c = true -> h in_ c X = h' in_ c X) ->
   pixel_at (pixel_engine self false in_ y x r channels out h out) X
   = pixel_at (pixel_engine self false in_ y x r channels out h' out) X)
  /\ ((forall c, request_channels (_request x y r t channels count) c = true ->
                 h in_ c X = h' in_ c X) ->
      pixel_at (pixel_engine self false in_ y x r channels out h out) X
      = pixel_at (pixel_engine self false in_ y x r channels out h' out) X)
  /\ (forall aborted ref c, out_channels member_channels c = false ->
        pixel_engine self aborted in_ y x r channels out h ref c X = h ref c X).
Proof.
  intros Hspan.
  assert (forall set : ChannelSet,
            (forall c, ChannelSet_add set Mask_RGBA c = true -> h in_ c X = h' in_ c X) ->
            pixel_at (pixel_engine self false in_ y x r channels out h out) X
            = pixel_at (pixel_engine self false in_ y x r channels out h' out) X)
    as Hreads.
  { intros set Hagree. rewrite !pixel_engine_written by done.
    f_equal. unfold pixel_at.
    by rewrite !Hagree by (unfold ChannelSet_add; apply orb_true_r). }
  split; [apply Hreads|]. split; [apply Hreads|].
  intros aborted ref c Hc. apply pixel_engine_untouched.
  right; right; right.
  unfold out_channels, ChannelSet_add in Hc; cbn zeta in Hc.
  apply orb_false_iff in Hc as [_ Hc]. destruct c; try done. by eexists.
Qed.

(** X1. What a call of the kernel leaves as it was: everything if the host
    has raised its abort signal; otherwise every pixel outside the span
    (all of them when the span is empty), every row but the output row
    (the input row, when it is another one), and every channel but the
    four of the pixel. *)
Theorem pixel_engine_frame self in_ y x r channels out h ref c X :
  pixel_engine self true in_ y x r channels out h ref c X = h ref c X
  /\ (~ (x <= X < r) ->
      pixel_engine self false in_ y x r channels out h ref c X = h ref c X)
  /\ (ref <> out ->
      pixel_engine self false in_ y x r channels out h ref c X = h ref c X)
  /\ (Mask_RGBA c = false ->
      pixel_engine self false in_ y x r channels out h ref c X = h ref c X).
Proof.
  split; [done|].
  split; [|split]; intros Hcase; apply pixel_engine_untouched; auto.
  right; right; right. destruct c; try done. by eexists.
Qed.

End KernelMore.

Lemma pixel_engine_frame_witness :
  ~ (0 <= 5 < 3)
  /\ pixel_engine (w_node f2) false 0%nat 0 0 3 (fun _ => true) 0%nat
                  white_but_first 0%nat Chan_Red 5
     = white_but_first 0%nat Chan_Red 5.
Proof.
  assert (~ (0 <= 5 < 3)) as Hout by lia.
  split; [exact Hout|].
  exact (proj1 (proj2 (pixel_engine_frame (w_node f2) 0%nat 0 0 3 (fun _ => true)
                         0%nat white_but_first 0%nat Chan_Red 5)) Hout).
Defined.

Lemma pixel_engine_adjacent_spans_witness :
  0 <= 1 <= 3
  /\ pixel_engine (w_node f2) false 0%nat 0 1 3 (fun _ => true) 0%nat
       (pixel_engine (w_node f2) false 0%nat 0 0 1 (fun _ => true) 0%nat white_but_first)
     = pixel_engine (w_node f2) false 0%nat 0 0 3 (fun _ => true) 0%nat white_but_first.
Proof.
  split; [lia|].
  apply (pixel_engine_adjacent_spans (w_node f2) 0%nat 0 0 1 3 (fun _ => true) 0%nat
           white_but_first); lia.
Defined.

Lemma divided_alpha_is_one_or_nan_witness :
  (_w_divide (w_node fthird) = true /\ 0 <= 2 < 3)
  /\ w (pixel_at (pixel_engine (w_node fthird) false 0%nat 0 0 3 (fun _ => true) 1%nat
                               thirds 1%nat) 2)
     = f1.
Proof.
  split; [split; [reflexivity | lia]|].
  refine (eq_trans
            (divided_alpha_is_one_or_nan (w_node fthird) 0%nat 0 0 3 (fun _ => true)
               1%nat thirds 2 _ _) _);
    [reflexivity | lia | vm_compute; reflexivity].
Defined.

Lemma identity_passes_numbers_witness :
  (array_mtx identity_node = makeIdentity /\ _w_divide identity_node = false
   /\ 0 <= 1 < 3 /\ ordinary_pixel (pixel_at (thirds 0%nat) 1) = true)
  /\ same_number
       (z (pixel_at (pixel_engine identity_node false 0%nat 0 0 3 (fun _ => true) 0%nat
                                  thirds 0%nat) 1))
       fthird.
Proof.
  split; [split; [reflexivity | split; [reflexivity | split; [lia | reflexivity]]]|].
  refine (proj1 (proj2 (proj2
            (identity_passes_numbers identity_node 0%nat 0 0 3 (fun _ => true) 0%nat
               thirds 1 _ _ _ _))));
    [reflexivity | reflexivity | lia | reflexivity].
Defined.

(** The sign of a zero is indeed lost: a red of [-0.0] beside positive
    numbers comes out as [+0.0]. *)
Lemma identity_loses_negative_zero :
  DDImage.x (pixel_at (pixel_engine identity_node false 0%nat 0 0 3 (fun _ => true)
                                    0%nat negative_zero_red 0%nat) 1)
  = f0.
Proof. reflexivity. Qed.

Lemma identity_spreads_non_numbers_witness :
  (array_mtx identity_node = makeIdentity /\ _w_divide identity_node = false
   /\ 0 <= 1 < 3 /\ is_number (w (pixel_at (infinite_alpha 0%nat) 1)) = false)
  /\ DDImage.x (pixel_at (pixel_engine identity_node false 0%nat 0 0 3 (fun _ => true)
                                       1%nat infinite_alpha 1%nat) 1)
     = NaN.
Proof.
  split; [split; [reflexivity | split; [reflexivity | split; [lia | reflexivity]]]|].
  refine (proj1 (proj2 (proj2 (proj2
            (identity_spreads_non_numbers identity_node 0%nat 0 0 3 (fun _ => true)
               1%nat infinite_alpha 1 _ _ _))) _));
    [reflexivity | reflexivity | lia | reflexivity].
Defined.

Lemma kernel_within_declared_channels_witness :
  0 <= 2 < 3
  /\ pixel_at (pixel_engine (w_node f2) false 0%nat 0 0 3 (fun _ => true) 1%nat
                            Sample.white 1%nat) 2
     = pixel_at (pixel_engine (w_node f2) false 0%nat 0 0 3 (fun _ => true) 1%nat
                              white_but_first 1%nat) 2.
Proof.
  split; [lia|].
  refine (proj1 (kernel_within_declared_channels (w_node f2) 0%nat 0 0 3 1
                   (fun _ => true) 1%nat 1 Mask_None Mask_None
                   Sample.white white_but_first 2 _) _); [lia|].
  intros c _. by destruct c.
Defined.

(* ===================================================================== *)
(** * More on the extraction, the bridge and the node *)
(* ===================================================================== *)

Section BridgeMore.
Context {ops : Matrix4Ops} {host : V16.Host} {host_legacy : Legacy.Host}.
Implicit Types (self : C44Matrix V16.Op) (legacy : C44Matrix Legacy.Op).
Implicit Types (oc : OutputContext) (option : Z).

(** X7. An extraction option outside 0..5 matches no case of the switches:
    the result is the identity the matrix was initialised with, for a
    camera and for an axis, in both variants. *)
Theorem unmatched_option_gives_identity option (cam : V16.CameraOp)
    (axis : V16.AxisOp) (fmt : Format) legacy oc :
  option < 0 \/ 5 < option ->
  V16.getCameraMatrix cam option fmt = makeIdentity
  /\ V16.getAxisMatrix axis option = makeIdentity
  /\ (option_at legacy oc = option ->
      Legacy.provided_matrix legacy oc = makeIdentity).
Proof.
  intros Hout. split; [|split].
  - option_cases option; try lia; reflexivity.
  - option_cases option; try lia; reflexivity.
  - unfold option_at. intros Hopt.
    unfold Legacy.provided_matrix; cbn zeta. rewrite Hopt.
    destruct (double_eqb _ _); [|done].
    destruct (input1 legacy); cbn; try done;
      option_cases option; try lia; reflexivity.
Qed.

(** X8. A camera is read like the axis it is for every option other than
    projection and format: only these two look at what a camera has beyond
    its world transform. *)
Theorem camera_extracted_as_axis option (cam : V16.CameraOp) (fmt : Format) :
  option <> 4 -> option <> 5 ->
  V16.getCameraMatrix cam option fmt = V16.getAxisMatrix (V16.camera_axis cam) option.
Proof. intros ? ?. option_cases option; try lia; reflexivity. Qed.

(** X9. The vector query returns 16 values in every state of the node, in
    both variants. *)
Theorem provideValues_has_16_values self legacy oc :
  length (V16.provideValues self oc) = 16%nat
  /\ length (Legacy.provideValues legacy oc) = 16%nat.
Proof.
  rewrite provideValues_eq, legacy_provideValues_eq, !length_fmap.
  split; [by destruct (bridge_matrix _ _) | by destruct (Legacy.provided_matrix _ _)].
Qed.

Lemma narrow_widen_list (l : list float) :
  Forall (fun a => valid_float a = true) l ->
  float_of_double <$> (double_of_float <$> l) = l.
Proof.
  induction 1 as [|a l Ha _ IH]; [done|].
  cbn [fmap list_fmap]. by rewrite narrow_after_widen, IH.
Qed.

Lemma array_length {A} (m : Mat4 A) : length (array m) = 16%nat.
Proof. by destruct m. Qed.

(** X10. The conversion of the port loses nothing on single-precision data:
    [mat4dToMatrix4] of the double-precision matrix that holds the numbers
    of a single-precision matrix is that matrix. *)
Theorem mat4dToMatrix4_exact_on_floats (m : Matrix4) :
  Forall (fun a => valid_float a = true) (array m) ->
  V16.mat4dToMatrix4 (widen m) = m.
Proof.
  intros Hvalid. unfold V16.mat4dToMatrix4, widen; cbn zeta.
  rewrite array_Mat4_of_array by (by rewrite length_fmap, array_length).
  rewrite narrow_widen_list by done. apply Mat4_of_array_array.
Qed.

(** X11. The live values read back: converted to single precision again, the
    16 doubles of the vector query are the entries of the matrix they
    come from. *)
Theorem live_values_read_back self oc :
  Forall (fun a => valid_float a = true) (array (bridge_matrix self oc)) ->
  float_of_double <$> V16.provideValues self oc = array (bridge_matrix self oc).
Proof. intros Hvalid. rewrite provideValues_eq. by apply narrow_widen_list. Qed.

(** X12. Resolution in provider mode, end to end: once the host has stored the
    live values in the array knob (as floats), [_validate] conditions the
    matrix the extraction returned. *)
Theorem provider_matrix_reaches_validate self oc for_real :
  Forall (fun a => valid_float a = true) (array (bridge_matrix self oc)) ->
  array_data (_arrayKnob self) = float_of_double <$> V16.provideValues self oc ->
  array_mtx (_validate self for_real)
  = let m := bridge_matrix self oc in
    let m := if _transpose self then transpose m else m in
    if _invert self then inverse m else m.
Proof.
  intros Hvalid Hstored.
  rewrite _validate_array_mtx, Hstored, provideValues_eq, narrow_widen_list by done.
  by rewrite Mat4_of_array_array.
Qed.

(** X13. The port answers as the original does: let the original's provider
    hold, in single precision, what the port's provider holds, and let the
    two hosts correspond ([validate()] commutes with the narrowing, and
    the format matrix is the same). Then the two variants return the same
    live values, and enable the bridge alike. *)
Theorem port_agrees_with_original self oc :
  (forall cam, Legacy.validate_camera (narrow_camera cam)
               = narrow_camera (V16.validate_camera cam)) ->
  (forall axis, Legacy.validate_axis (narrow_axis axis)
                = narrow_axis (V16.validate_axis axis)) ->
  (forall cam fmt, Legacy.to_format cam makeIdentity fmt
                   = V16.ToFormat makeIdentity fmt) ->
  Legacy.provideValues (narrow_node self) oc = V16.provideValues self oc
  /\ Legacy.provideValuesEnabled (narrow_node self) oc
     = V16.provideValuesEnabled self oc.
Proof.
  intros Hcam Haxis Hfmt. split; [|done].
  rewrite provideValues_eq, legacy_provideValues_eq. do 2 f_equal.
  unfold Legacy.provided_matrix, bridge_matrix, from_provider_at, V16._getInputMatrix;
    cbn [knob input1 input_format narrow_node].
  unfold FromProvider.
  destruct (double_eqb _ _); [|done].
  destruct (input1 self) as [|cam|axis|]; cbn; [done| | |done].
  - rewrite Hcam.
    destruct (int_of_double _) as [|[[[?|?|]|[?|?|]|]|[[?|?|]|[?|?|]|]|]|?];
      try reflexivity.
    cbn. rewrite Hfmt. unfold V16.mat4fToMatrix4. by rewrite Mat4_of_array_array.
  - rewrite Haxis.
    by destruct (int_of_double _) as [|[[[?|?|]|[?|?|]|]|[[?|?|]|[?|?|]|]|]|?].
Qed.

(** X14. What [test_input] turns away at the second input extracts to the
    identity: for an index of 1 or more the test accepts cameras and axes
    and nothing else, and an operator that fails it yields the identity
    matrix and the identity's live values. This holds in both variants. *)
Theorem rejected_input_gives_identity (Iop_test_input : Z -> V16.Op -> bool)
    (Iop_test_input' : Z -> Legacy.Op -> bool) (n : Z) self legacy oc :
  1 <= n ->
  ((V16Inputs.test_input Iop_test_input n (input1 self) = true
    <-> (exists cam, input1 self = V16.Op_camera cam)
        \/ (exists axis, input1 self = V16.Op_axis axis))
   /\ (V16Inputs.test_input Iop_test_input n (input1 self) = false ->
       V16._getInputMatrix self oc = makeIdentity
       /\ V16.provideValues self oc = identity_values))
  /\ ((LegacyInputs.test_input Iop_test_input' n (input1 legacy) = true
       <-> (exists cam, input1 legacy = Legacy.Op_camera cam)
           \/ (exists axis, input1 legacy = Legacy.Op_axis axis))
      /\ (LegacyInputs.test_input Iop_test_input' n (input1 legacy) = false ->
          Legacy.provided_matrix legacy oc = makeIdentity
          /\ Legacy.provideValues legacy oc = identity_values)).
Proof.
  intros Hn. unfold V16Inputs.test_input, LegacyInputs.test_input.
  assert ((1 <=? n) = true) as -> by by apply Z.leb_le.
  split; split.
  - destruct (input1 self) as [|cam|axis|]; cbn; split; try done; eauto.
    + by intros [[? [=]]|[? [=]]].
    + by intros [[? [=]]|[? [=]]].
  - intros Hrejected.
    assert (V16._getInputMatrix self oc = makeIdentity) as E.
    { unfold V16._getInputMatrix.
      by destruct (input1 self) as [|cam|axis|]. }
    split; [done|].
    rewrite provideValues_eq. unfold bridge_matrix. rewrite E.
    by destruct (from_provider_at self oc).
  - destruct (input1 legacy) as [|cam|axis|]; cbn; split; try done; eauto.
    + by intros [[? [=]]|[? [=]]].
    + by intros [[? [=]]|[? [=]]].
  - intros Hrejected.
    assert (Legacy.provided_matrix legacy oc = makeIdentity) as E.
    { unfold Legacy.provided_matrix; cbn zeta.
      destruct (double_eqb _ _); [|done].
      by destruct (input1 legacy) as [|cam|axis|]. }
    split; [done|].
    by rewrite legacy_provideValues_eq, E.
Qed.

End BridgeMore.

Section NodeMore.
Context {Op : Type} {ops : Matrix4Ops}.
Implicit Types (self : C44Matrix Op).

(** X15. [_validate] computes the effective matrix afresh from the array knob
    and the flags: the matrix cached before does not matter, and
    validating again changes nothing (transposition and inversion do not
    pile up). *)
Theorem validate_starts_afresh self (m : Matrix4) (a b : bool) :
  _validate (set_array_mtx self m) a = _validate self a
  /\ _validate (_validate self a) b = _validate self a.
Proof. done. Qed.

(** The node has a fixed number of inputs, one or two: two exactly when
    [_matrixFrom] selects the provider. *)
Theorem inputs_fixed_arity self :
  minimum_inputs self = maximum_inputs self
  /\ (minimum_inputs self = 2 <-> _matrixFrom self = 1)
  /\ (minimum_inputs self = 1 <-> _matrixFrom self <> 1).
Proof.
  unfold minimum_inputs, maximum_inputs.
  destruct (Z.eqb_spec (_matrixFrom self) 1); lia.
Qed.

End NodeMore.

Lemma unmatched_option_gives_identity_witness :
  (7 < 0 \/ 5 < 7)
  /\ V16._getInputMatrix (ops := Sample.ops) (host := Sample.host16)
       axis_node Sample.frame1 = makeIdentity.
Proof.
  assert (7 < 0 \/ 5 < 7) as Hout by lia.
  split; [exact Hout|].
  exact (proj1 (proj2
           (unmatched_option_gives_identity (ops := Sample.ops) (host := Sample.host16)
              (host_legacy := Sample.host_legacy) 7 tenth_camera
              (V16.camera_axis tenth_camera) Sample.HD legacy_projection_node
              Sample.frame1 Hout))).
Defined.

Lemma camera_extracted_as_axis_witness :
  (2 <> 4 /\ 2 <> 5)
  /\ V16.getCameraMatrix (ops := Sample.ops) (host := Sample.host16)
       tenth_camera 2 Sample.HD
     = V16.getAxisMatrix (ops := Sample.ops) (V16.camera_axis tenth_camera) 2.
Proof.
  split; [lia|].
  apply (camera_extracted_as_axis (ops := Sample.ops) (host := Sample.host16)); lia.
Defined.

Lemma mat4dToMatrix4_exact_on_floats_witness :
  Forall (fun a => valid_float a = true) (array (Sample.diag fthird f2 fhalf f1))
  /\ V16.mat4dToMatrix4 (widen (Sample.diag fthird f2 fhalf f1))
     = Sample.diag fthird f2 fhalf f1.
Proof.
  assert (Forall (fun a => valid_float a = true)
            (array (Sample.diag fthird f2 fhalf f1))) as Hvalid
    by (repeat constructor).
  split; [exact Hvalid|].
  exact (mat4dToMatrix4_exact_on_floats _ Hvalid).
Defined.

Lemma live_values_read_back_witness :
  Forall (fun a => valid_float a = true)
    (array (bridge_matrix (ops := Sample.ops) (host := Sample.host16)
              projection_node Sample.frame1))
  /\ float_of_double
       <$> V16.provideValues (ops := Sample.ops) (host := Sample.host16)
             projection_node Sample.frame1
     = array (bridge_matrix (ops := Sample.ops) (host := Sample.host16)
                projection_node Sample.frame1).
Proof.
  assert (Forall (fun a => valid_float a = true)
            (array (bridge_matrix (ops := Sample.ops) (host := Sample.host16)
                      projection_node Sample.frame1))) as Hvalid
    by (repeat constructor).
  split; [exact Hvalid|].
  exact (live_values_read_back (ops := Sample.ops) (host := Sample.host16)
           projection_node Sample.frame1 Hvalid).
Defined.

Lemma port_agrees_with_original_witness :
  Legacy.provideValues (ops := Sample.ops) (host := Sample.host_legacy)
    (narrow_node projection_node) Sample.frame1
  = V16.provideValues (ops := Sample.ops) (host := Sample.host16)
      projection_node Sample.frame1.
Proof.
  apply (port_agrees_with_original (ops := Sample.ops) (host := Sample.host16)
           (host_legacy := Sample.host_legacy) projection_node Sample.frame1);
    reflexivity.
Defined.

Lemma rejected_input_gives_identity_witness :
  (1 <= 1
   /\ V16Inputs.test_input (fun _ _ => true) 1 (input1 unconnected_node) = false)
  /\ V16.provideValues (ops := Sample.ops) (host := Sample.host16)
       unconnected_node Sample.frame1
     = identity_values.
Proof.
  split; [split; [lia | reflexivity]|].
  refine (proj2 (proj2 (proj1 (rejected_input_gives_identity (ops := Sample.ops)
                          (host := Sample.host16) (host_legacy := Sample.host_legacy)
                          (fun _ _ => true) (fun _ _ => true) 1
                          unconnected_node legacy_misconnected_node Sample.frame1 _))
                 _)); [lia | reflexivity].
Defined.

Lemma provider_matrix_reaches_validate_witness :
  array_data (_arrayKnob stored_projection_node)
  = float_of_double
      <$> V16.provideValues (ops := Sample.ops) (host := Sample.host16)
            stored_projection_node Sample.frame1
  /\ array_mtx (_validate (ops := Sample.ops) stored_projection_node true)
     = transpose (V16.mat4dToMatrix4 (V16.projectionMatrix tenth_camera)).
Proof.
  split; [reflexivity|].
  refine (eq_trans
            (provider_matrix_reaches_validate (ops := Sample.ops) (host := Sample.host16)
               stored_projection_node Sample.frame1 true _ _) _);
    [repeat constructor | reflexivity | reflexivity].
Defined.
